(** * Trackr: derived metrics, streaks and habit-entry writes

    A shallow embedding of the calculation core of the Trackr mobile
    application (finance analytics, health metrics, habit streaks and the
    habit-entry write path), with the properties of its specification
    stated and settled against it.

    Conventions of the embedding.
    - A JavaScript [number] holding money, a weight or a ratio is an exact
      rational ([Q]); equality of results is [Qeq].  Counters are [Z].
      A division by zero, which in JavaScript yields an infinity or NaN,
      has no value ([divide]), and neither has a result computed from it.
    - A JavaScript [Date] is its [getTime()] value: milliseconds since the
      epoch, as [Z].  The date-fns helpers and the [Date] methods the
      program calls are modelled for the UTC time zone (module [DateFns]).
    - Within one call, successive reads of the clock ([new Date()]) return
      the same instant [now], which every time-dependent function takes as
      an explicit argument.
    - React state is passed explicitly; the SQLite table the habit writes
      go to is a list of rows next to it. *)

From Stdlib Require Import ZArith QArith Qabs Qminmax List Sorted Bool Lia Lqa.
From stdpp Require Import gmap strings.

Import ListNotations.
Local Open Scope Z_scope.

(** ** Dates (date-fns and [Date], UTC) *)

Module DateFns.

Definition Date := Z.

Definition msPerDay : Z := 86400000.

(** Number of the calendar day of an instant (days since 1970-01-01);
    two instants have the same ['yyyy-MM-dd'] rendering exactly when
    they have the same day number. *)
Definition dayNumber (d : Date) : Z := d / msPerDay.

(** [startOfDay]: the instant truncated to 00:00:00.000 of its day. *)
Definition startOfDay (d : Date) : Date := dayNumber d * msPerDay.

(** [d.setDate(d.getDate() + n)]: move by [n] calendar days. *)
Definition addDays (d : Date) (n : Z) : Date := d + n * msPerDay.

(** [differenceInDays(left, right)]: the number of full days between
    the two instants, truncated towards zero. *)
Definition differenceInDays (dateLeft dateRight : Date) : Z :=
  Z.quot (dateLeft - dateRight) msPerDay.

(** [d.getDay()]: 0 is Sunday; 1970-01-01 was a Thursday. *)
Definition getDay (d : Date) : Z := (dayNumber d + 4) mod 7.

(** Civil calendar: day number from (year, month, day), and back. *)
Definition daysFromCivil (y m d : Z) : Z :=
  let y' := if m <=? 2 then y - 1 else y in
  let era := y' / 400 in
  let yoe := y' - era * 400 in
  let mp := if 2 <? m then m - 3 else m + 9 in
  let doy := (153 * mp + 2) / 5 + d - 1 in
  let doe := yoe * 365 + yoe / 4 - yoe / 100 + doy in
  era * 146097 + doe - 719468.

Definition civilFromDays (z : Z) : Z * Z * Z :=
  let z' := z + 719468 in
  let era := z' / 146097 in
  let doe := z' - era * 146097 in
  let yoe := (doe - doe / 1460 + doe / 36524 - doe / 146096) / 365 in
  let doy := doe - (365 * yoe + yoe / 4 - yoe / 100) in
  let mp := (5 * doy + 2) / 153 in
  let d := doy - (153 * mp + 2) / 5 + 1 in
  let m := if mp <? 10 then mp + 3 else mp - 9 in
  let y := yoe + era * 400 in
  (if m <=? 2 then y + 1 else y, m, d).

(** [startOfMonth]: 00:00:00.000 of the first day of the month. *)
Definition startOfMonth (d : Date) : Date :=
  let '(y, m, _) := civilFromDays (dayNumber d) in
  daysFromCivil y m 1 * msPerDay.

(** [endOfMonth]: 23:59:59.999 of the last day of the month, one
    millisecond before the start of the next month. *)
Definition endOfMonth (d : Date) : Date :=
  let '(y, m, _) := civilFromDays (dayNumber d) in
  let next := if m =? 12 then daysFromCivil (y + 1) 1 1
              else daysFromCivil y (m + 1) 1 in
  next * msPerDay - 1.

End DateFns.
Export DateFns.

(** ** Numbers *)

(** [x / y].  With a zero divisor the JavaScript quotient is not a finite
    number: it is undefined here. *)
Definition divide (x y : Q) : option Q :=
  if Qeq_bool y 0 then None else Some (x / y)%Q.

(** ** Data model (src/types) *)

Inductive Frequency := Daily.

Record Habit := mkHabit {
  h_id : string;
  h_name : string;
  h_category : string;
  h_frequency : Frequency;
  h_targetCount : Z
}.

Record HabitEntry := mkHabitEntry {
  e_id : string;
  e_habitId : string;
  e_date : Date;
  e_completed : bool;
  e_count : Z;
  e_createdAt : Date;
  e_updatedAt : Date
}.

(** ** Habit streaks (src/services/calculations.ts) *)

Definition frequency_is_daily (f : Frequency) : bool :=
  match f with Daily => true end.

(** [[...entries].sort((a, b) => b.date.getTime() - a.date.getTime())]:
    a stable sort, newest first. *)
Fixpoint insertByDateDesc (x : HabitEntry) (l : list HabitEntry) : list HabitEntry :=
  match l with
  | [] => [x]
  | y :: l' =>
      if e_date y <=? e_date x then x :: y :: l'
      else y :: insertByDateDesc x l'
  end.

Definition sortByDateDesc (l : list HabitEntry) : list HabitEntry :=
  fold_right insertByDateDesc [] l.

Record StreakVars := mkStreakVars {
  currentStreak : Z;
  longestStreak : Z;
  tempStreak : Z
}.

Record Streak := mkStreak { current : Z; longest : Z }.

(** One iteration of the loop of [calculateStreak]; [prev] is
    [sortedEntries[i - 1]], absent exactly when [i === 0]. *)
Definition streakIteration (now : Date) (frequency : Frequency)
    (prev : option HabitEntry) (entry : HabitEntry) (s : StreakVars) : StreakVars :=
  if negb (e_completed entry) then
    mkStreakVars
      (match prev with None => 0 | Some _ => currentStreak s end)
      (longestStreak s)
      0
  else
    let s' :=
      match prev with
      | None =>
          let daysSinceLastEntry := differenceInDays now (e_date entry) in
          if frequency_is_daily frequency && (daysSinceLastEntry <=? 1)
          then mkStreakVars 1 (longestStreak s) 1
          else mkStreakVars 0 (longestStreak s) 1
      | Some p =>
          let daysBetween := differenceInDays (e_date p) (e_date entry) in
          if frequency_is_daily frequency && (daysBetween =? 1)
          then mkStreakVars (currentStreak s) (longestStreak s) (tempStreak s + 1)
          else mkStreakVars (currentStreak s) (longestStreak s) 1
      end in
    mkStreakVars (currentStreak s')
                 (Z.max (longestStreak s') (tempStreak s'))
                 (tempStreak s').

Fixpoint streakLoop (now : Date) (frequency : Frequency)
    (prev : option HabitEntry) (l : list HabitEntry) (s : StreakVars) : StreakVars :=
  match l with
  | [] => s
  | entry :: l' =>
      streakLoop now frequency (Some entry) l'
                 (streakIteration now frequency prev entry s)
  end.

Definition calculateStreak (now : Date) (entries : list HabitEntry)
    (frequency : Frequency) : Streak :=
  match entries with
  | [] => mkStreak 0 0
  | _ =>
      let sortedEntries := sortByDateDesc entries in
      let s := streakLoop now frequency None sortedEntries (mkStreakVars 0 0 0) in
      mkStreak (currentStreak s) (longestStreak s)
  end.

(** The entry a completed day leaves behind. *)
Definition completedEntry (id habitId : string) (day : Date) : HabitEntry :=
  mkHabitEntry id habitId day true 1 day day.

(** [calculateCompletionRate]: completed entries over [totalDays], as a
    percentage. *)
Definition calculateCompletionRate (entries : list HabitEntry) (totalDays : Z)
    : option Q :=
  if totalDays =? 0 then Some 0%Q
  else
    let completedDays := Z.of_nat (length (List.filter e_completed entries)) in
    q ← divide (inject_Z completedDays) (inject_Z totalDays);
    Some (q * 100)%Q.

(** ** Finance (src/types/finance.ts, src/contexts/FinanceContext.tsx,
       src/screens/finance/BudgetsScreen.tsx) *)

Inductive TransactionType := Income | Expense.

Definition TransactionType_eqb (a b : TransactionType) : bool :=
  match a, b with
  | Income, Income | Expense, Expense => true
  | _, _ => false
  end.

Record Transaction := mkTransaction {
  t_id : string;
  t_amount : Q;
  t_category : string;
  t_description : string;
  t_date : Date;
  t_type : TransactionType
}.

Inductive BudgetPeriod := Monthly | Weekly.

Record Budget := mkBudget {
  b_id : string;
  b_category : string;
  b_amount : Q;
  b_period : BudgetPeriod;
  b_spent : Q;
  b_startDate : Date
}.

(** [l.reduce((sum, t) => sum + t.amount, 0)] *)
Definition sumAmounts (l : list Transaction) : Q :=
  fold_left (fun sum t => (sum + t_amount t)%Q) l 0%Q.

Record MonthlyBalance := mkMonthlyBalance {
  income : Q;
  expenses : Q;
  balance : Q
}.

Definition getMonthlyBalance (now : Date) (transactions : list Transaction)
    : MonthlyBalance :=
  let monthStart := startOfMonth now in
  let monthEnd := endOfMonth now in
  let monthTransactions :=
    List.filter (fun t => (monthStart <=? t_date t) && (t_date t <=? monthEnd))
                transactions in
  let income :=
    sumAmounts (List.filter (fun t => TransactionType_eqb (t_type t) Income)
                            monthTransactions) in
  let expenses :=
    sumAmounts (List.filter (fun t => TransactionType_eqb (t_type t) Expense)
                            monthTransactions) in
  mkMonthlyBalance income expenses (income - expenses)%Q.

Inductive SpendingPeriod := Month | Week.

(** [x || 0] on an optional number: [undefined] and [0] both give [0]. *)
Definition orZero (x : option Q) : Q :=
  match x with
  | Some v => if Qeq_bool v 0 then 0%Q else v
  | None => 0%Q
  end.

(** [acc[t.category] = (acc[t.category] || 0) + t.amount; return acc] *)
Definition addToCategory (acc : gmap string Q) (t : Transaction) : gmap string Q :=
  <[t_category t := (orZero (acc !! t_category t) + t_amount t)%Q]> acc.

(** The window [getCategorySpending] filters with: both ends of the week
    window are [new Date()]. *)
Definition categorySpendingWindow (now : Date) (period : SpendingPeriod) : Date * Date :=
  match period with
  | Month => (startOfMonth now, endOfMonth now)
  | Week => (now, now)
  end.

Definition getCategorySpending (now : Date) (transactions : list Transaction)
    (period : SpendingPeriod) : gmap string Q :=
  let '(start, end_) := categorySpendingWindow now period in
  let periodTransactions :=
    List.filter (fun t => TransactionType_eqb (t_type t) Expense
                          && (start <=? t_date t) && (t_date t <=? end_))
                transactions in
  fold_left addToCategory periodTransactions ∅.

(** The window [getMonthlySpending] resolves for a category: the current
    Sunday-start week for a weekly budget, else the current month. *)
Definition spendingWindow (now : Date) (budget : option Budget) : Date * Date :=
  match option_map b_period budget with
  | Some Weekly =>
      let today := now in
      let weekStart := addDays today (- getDay today) in
      let weekEnd := addDays weekStart 6 in
      (weekStart, weekEnd)
  | _ => (startOfMonth now, endOfMonth now)
  end.

Definition getMonthlySpending (now : Date) (budgets : list Budget)
    (transactions : list Transaction) (category : string) : Q :=
  let budget := List.find (fun b => String.eqb (b_category b) category) budgets in
  let '(periodStart, periodEnd) := spendingWindow now budget in
  sumAmounts
    (List.filter (fun t => TransactionType_eqb (t_type t) Expense
                           && String.eqb (t_category t) category
                           && (periodStart <=? t_date t)
                           && (t_date t <=? periodEnd))
                 transactions).

Record BudgetProgress := mkBudgetProgress {
  spent : Q;
  percentage : Q;
  remaining : Q
}.

(** [x > 0] on numbers. *)
Definition Qpositive (x : Q) : bool := negb (Qle_bool x 0).

(** The body of [getBudgetProgress] once [spent] is known. *)
Definition budgetProgressOf (spent amount : Q) : option BudgetProgress :=
  percentage ← (if Qpositive amount
                then q ← divide spent amount; Some (q * 100)%Q
                else Some 0%Q);
  Some (mkBudgetProgress spent (Qmin percentage 100) (Qmax (amount - spent) 0)).

Definition getBudgetProgress (now : Date) (budgets : list Budget)
    (transactions : list Transaction) (budget : Budget) : option BudgetProgress :=
  let spent := getMonthlySpending now budgets transactions (b_category budget) in
  budgetProgressOf spent (b_amount budget).

(** src/services/calculations.ts *)
Definition calculateBudgetProgress (spent budget : Q) : option Q :=
  if Qeq_bool budget 0 then Some 0%Q
  else q ← divide spent budget; Some (q * 100)%Q.

(** ** Health (src/services/calculations.ts, src/contexts/HealthContext.tsx) *)

Inductive Gender := Male | Female.
Inductive MeasurementUnit := Metric | Imperial.

(** Truthiness of a number: every number but [0] is truthy. *)
Definition truthy (x : Q) : bool := negb (Qeq_bool x 0).

Section BodyFat.

(** [Math.log10], left abstract; it has no value where the JavaScript
    function returns NaN or an infinity (no positive argument). *)
Variable log10 : Q -> option Q.

Definition toCm (unit : MeasurementUnit) (x : Q) : Q :=
  match unit with Metric => x | Imperial => (x * 2.54)%Q end.

Definition calculateBodyFat (gender : Gender) (waist neck height : Q)
    (hip : option Q) (unit : MeasurementUnit) : option Q :=
  let waistCm := toCm unit waist in
  let neckCm := toCm unit neck in
  let heightCm := toCm unit height in
  let hipCm :=
    match hip with
    | Some h => if truthy h then toCm unit h else 0%Q
    | None => 0%Q
    end in
  match gender with
  | Male =>
      logGirth ← log10 (waistCm - neckCm)%Q;
      logHeight ← log10 heightCm;
      q ← divide 495 (1.0324 - 0.19077 * logGirth + 0.15456 * logHeight)%Q;
      Some (q - 450)%Q
  | Female =>
      if negb (truthy hipCm) then Some 0%Q
      else
        logGirth ← log10 (waistCm + hipCm - neckCm)%Q;
        logHeight ← log10 heightCm;
        q ← divide 495 (1.29579 - 0.35004 * logGirth + 0.22100 * logHeight)%Q;
        Some (q - 450)%Q
  end.

End BodyFat.

Record WeightEntry := mkWeightEntry {
  w_id : string;
  w_weight : Q;
  w_date : Date
}.

Inductive Trend := Up | Down | Stable.

Record WeightTrend := mkWeightTrend { trend : Trend; change : Q }.

(** [x < y] on numbers. *)
Definition Qltb (x y : Q) : bool := negb (Qle_bool y x).

(** [entries[i].weight]; the index is in range at both uses below. *)
Definition weightAt (entries : list WeightEntry) (i : nat) : Q :=
  match nth_error entries i with
  | Some e => w_weight e
  | None => 0%Q
  end.

Definition getWeightTrend (now : Date) (weightEntries : list WeightEntry)
    (days : Z) : WeightTrend :=
  if (length weightEntries <? 2)%nat then mkWeightTrend Stable 0
  else
    let cutoffDate := addDays now (- days) in
    let recentEntries :=
      List.filter (fun e => cutoffDate <=? w_date e) weightEntries in
    if (length recentEntries <? 2)%nat then mkWeightTrend Stable 0
    else
      let latestWeight := weightAt recentEntries 0 in
      let oldestWeight := weightAt recentEntries (length recentEntries - 1) in
      let change := (latestWeight - oldestWeight)%Q in
      let trend :=
        if Qltb (Qabs change) 0.1 then Stable
        else if Qpositive change then Up
        else Down in
      mkWeightTrend trend (Qabs change).

(** ** Habits context (src/contexts/HabitsContext.tsx) *)

(** [format(d, 'yyyy-MM-dd')]: the rendering of the calendar day of [d],
    kept as the day number it is a one-to-one rendering of. *)
Definition formatDay (d : Date) : Z := dayNumber d.

(** A row of the [habit_entries] table. *)
Record HabitEntryRow := mkHabitEntryRow {
  r_id : string;
  r_habit_id : string;
  r_date : Z;
  r_completed : Z;
  r_count : Z;
  r_created_at : Date;
  r_updated_at : Date
}.

(** The provider's state: the [habits] and [habitEntries] React state and
    the [habit_entries] table behind them. *)
Record HabitsState := mkHabitsState {
  habits : list Habit;
  habitEntries : list HabitEntry;
  habit_entries : list HabitEntryRow
}.

Inductive HabitsError := HabitNotFound.

(** [habits.find(h => h.id === habitId)] *)
Definition findHabit (hs : list Habit) (habitId : string) : option Habit :=
  List.find (fun h => String.eqb (h_id h) habitId) hs.

(** [updateHabit(id, { targetCount })]: the habit's target is replaced;
    the entries are not touched. *)
Definition updateHabitTargetCount (s : HabitsState) (id : string)
    (targetCount : Z) : HabitsState :=
  mkHabitsState
    (List.map (fun h =>
            if String.eqb (h_id h) id
            then mkHabit (h_id h) (h_name h) (h_category h) (h_frequency h)
                         targetCount
            else h)
         (habits s))
    (habitEntries s)
    (habit_entries s).

Definition entryMatches (habitId : string) (dateStr : Z) (e : HabitEntry) : bool :=
  String.eqb (e_habitId e) habitId && (formatDay (e_date e) =? dateStr).

(** [WHERE habit_id = ? AND date = ?] *)
Definition rowMatches (habitId : string) (dateStr : Z) (r : HabitEntryRow) : bool :=
  String.eqb (r_habit_id r) habitId && (r_date r =? dateStr).

Definition boolToInt (b : bool) : Z := if b then 1 else 0.

(** [l.map(x => p(x) ? f(x) : x)], and [UPDATE ... WHERE p] on a table. *)
Definition mapWhere {A} (p : A -> bool) (f : A -> A) (l : list A) : list A :=
  List.map (fun x => if p x then f x else x) l.

(** [{ ...e, completed, count, updatedAt: now }] *)
Definition setEntry (completed : bool) (count : Z) (now : Date)
    (e : HabitEntry) : HabitEntry :=
  mkHabitEntry (e_id e) (e_habitId e) (e_date e) completed count
               (e_createdAt e) now.

(** [UPDATE habit_entries SET completed = ?, count = ?, updated_at = ?]
    on one row. *)
Definition setRow (completed count : Z) (now : Date)
    (r : HabitEntryRow) : HabitEntryRow :=
  mkHabitEntryRow (r_id r) (r_habit_id r) (r_date r) completed count
                  (r_created_at r) now.

(** [markHabitComplete(habitId, date, count)]; [now] is [new Date()] and
    [id] is [Date.now().toString()]. *)
Definition markHabitComplete (now : Date) (id : string) (s : HabitsState)
    (habitId : string) (date : Date) (count : Z) : HabitsError + HabitsState :=
  let dateStr := formatDay (startOfDay date) in
  match findHabit (habits s) habitId with
  | None => inl HabitNotFound
  | Some habit =>
      let isCompleted := h_targetCount habit <=? count in
      let existing := List.find (rowMatches habitId dateStr) (habit_entries s) in
      match existing with
      | Some _ =>
          inr (mkHabitsState
                 (habits s)
                 (mapWhere (entryMatches habitId dateStr)
                           (setEntry isCompleted count now)
                           (habitEntries s))
                 (mapWhere (rowMatches habitId dateStr)
                           (setRow (boolToInt isCompleted) count now)
                           (habit_entries s)))
      | None =>
          let newEntry :=
            mkHabitEntry id habitId (startOfDay date) isCompleted count now now in
          inr (mkHabitsState
                 (habits s)
                 (newEntry :: habitEntries s)
                 (habit_entries s ++
                    [mkHabitEntryRow id habitId dateStr (boolToInt isCompleted)
                                     count now now]))
      end
  end.

Definition markHabitIncomplete (now : Date) (s : HabitsState)
    (habitId : string) (date : Date) : HabitsState :=
  let dateStr := formatDay (startOfDay date) in
  mkHabitsState
    (habits s)
    (mapWhere (entryMatches habitId dateStr) (setEntry false 0 now)
              (habitEntries s))
    (mapWhere (rowMatches habitId dateStr) (setRow 0 0 now)
              (habit_entries s)).

Record TodaysHabit := mkTodaysHabit {
  th_habit : Habit;
  th_completed : bool;
  th_count : Z
}.

Definition getTodaysHabits (now : Date) (s : HabitsState) : list TodaysHabit :=
  let today := startOfDay now in
  let todayStr := formatDay today in
  List.map (fun habit =>
         let entry := List.find (entryMatches (h_id habit) todayStr) (habitEntries s) in
         mkTodaysHabit habit
           (match entry with Some e => e_completed e | None => false end)
           (match entry with Some e => e_count e | None => 0 end))
      (habits s).

(** ** Habits dashboard (HabitsDashboard, src/unnamed/part_006) *)

Definition habitProgress (h : TodaysHabit) : option Q :=
  q ← divide (inject_Z (th_count h)) (inject_Z (h_targetCount (th_habit h)));
  Some (q * 100)%Q.

Definition completionPercentage (todaysHabits : list TodaysHabit) : option Q :=
  habitProgressList ← mapM habitProgress todaysHabits;
  if (0 <? length todaysHabits)%nat
  then divide (fold_left (fun sum progress => (sum + progress)%Q)
                         habitProgressList 0%Q)
              (inject_Z (Z.of_nat (length todaysHabits)))
  else Some 0%Q.

(** ** The specification's sums and sample records *)

(** The sum of the amounts of the transactions of [l] that satisfy [p],
    as the specification words it. *)
Fixpoint sumOfAmountsWhere (p : Transaction -> bool) (l : list Transaction) : Q :=
  match l with
  | [] => 0%Q
  | t :: l' =>
      if p t then (t_amount t + sumOfAmountsWhere p l')%Q
      else sumOfAmountsWhere p l'
  end.

(** A transaction dated within the month of [now], both ends included. *)
Definition inMonthOf (now : Date) (t : Transaction) : bool :=
  (startOfMonth now <=? t_date t) && (t_date t <=? endOfMonth now).

Definition isIncome (t : Transaction) : bool :=
  match t_type t with Income => true | Expense => false end.

Definition isExpense (t : Transaction) : bool :=
  match t_type t with Expense => true | Income => false end.

(** 2024-01-17 (a Wednesday), 12:00:00.000. *)
Definition sampleNow : Date := 19739 * msPerDay + 43200000.

Definition sampleFoodBudget : Budget :=
  mkBudget "b1" "food" 200 Monthly 0 (19723 * msPerDay).

(** A food budget whose amount is 0. *)
Definition sampleZeroBudget : Budget :=
  mkBudget "b0" "food" 0 Monthly 0 (19723 * msPerDay).

(** Two food expenses on 2024-01-15 and 2024-01-16. *)
Definition sampleTransactions : list Transaction :=
  [mkTransaction "t1" 100 "food" "groceries" (19737 * msPerDay + 36000000) Expense;
   mkTransaction "t2" 50 "food" "lunch" (19738 * msPerDay + 36000000) Expense].

(** A weight entry dated within the last [days] days before [now]. *)
Definition inLastDays (now : Date) (days : Z) (e : WeightEntry) : bool :=
  addDays now (- days) <=? w_date e.

(** Entries ordered newest first. *)
Definition newestFirst (entries : list WeightEntry) : Prop :=
  StronglySorted (fun a b => w_date b <= w_date a) entries.

(** Four weigh-ins of the week before [sampleNow], newest first, and one
    a month old. *)
Definition sampleWeights : list WeightEntry :=
  [mkWeightEntry "w5" 71.5 (19739 * msPerDay);
   mkWeightEntry "w4" 71.2 (19738 * msPerDay);
   mkWeightEntry "w3" 70.9 (19736 * msPerDay);
   mkWeightEntry "w2" 70.4 (19734 * msPerDay);
   mkWeightEntry "w1" 69 (19709 * msPerDay)].

(** ** Invariants of the habit entries *)

(** The (habit, day) pair an entry, or a row, is stored under. *)
Definition entryKey (e : HabitEntry) : string * Z :=
  (e_habitId e, formatDay (e_date e)).

Definition rowKey (r : HabitEntryRow) : string * Z :=
  (r_habit_id r, r_date r).

(** [completed == (count >= habit.targetCount)] for the habit of the
    entry. *)
Definition entryConsistent (hs : list Habit) (e : HabitEntry) : Prop :=
  forall h, findHabit hs (e_habitId e) = Some h ->
            e_completed e = (h_targetCount h <=? e_count e).

Definition rowConsistent (hs : list Habit) (r : HabitEntryRow) : Prop :=
  forall h, findHabit hs (r_habit_id r) = Some h ->
            r_completed r = boolToInt (h_targetCount h <=? r_count r).

(** The two invariants of the stored entries, on the React state and on
    the table: completion agrees with the count, and no (habit, day)
    pair is stored twice. *)
Record entriesInvariant (s : HabitsState) : Prop := mkEntriesInvariant {
  inv_entries_completed : Forall (entryConsistent (habits s)) (habitEntries s);
  inv_rows_completed : Forall (rowConsistent (habits s)) (habit_entries s);
  inv_entries_unique : List.NoDup (List.map entryKey (habitEntries s));
  inv_rows_unique : List.NoDup (List.map rowKey (habit_entries s))
}.

(** The React state mirrors the table: the same (habit, day) pairs are
    stored in both. *)
Definition mirrored (s : HabitsState) : Prop :=
  forall k, List.In k (List.map entryKey (habitEntries s))
            <-> List.In k (List.map rowKey (habit_entries s)).

(** Every habit has a target count of at least 1. *)
Definition targetsPositive (s : HabitsState) : Prop :=
  Forall (fun h => 1 <= h_targetCount h) (habits s).

(** A habit to drink water three times a day, with nothing logged. *)
Definition sampleHabits : HabitsState :=
  mkHabitsState [mkHabit "h1" "Drink water" "health" Daily 3] [] [].

(** The state a write leaves: the new state, or the old one when the
    write failed. *)
Definition orElse (r : HabitsError + HabitsState) (s : HabitsState) : HabitsState :=
  match r with inr s' => s' | inl _ => s end.

(** [sampleHabits] after logging two glasses, then a third, on the day
    of [sampleNow]. *)
Definition sampleAfterTwo : HabitsState :=
  orElse (markHabitComplete (sampleNow + 1) "e1" sampleHabits "h1" sampleNow 2)
         sampleHabits.

Definition sampleAfterThree : HabitsState :=
  orElse (markHabitComplete (sampleNow + 2) "e2" sampleAfterTwo "h1" sampleNow 3)
         sampleAfterTwo.

(** The current Sunday-start week, as the specification words it:
    [today - today.dayOfWeek] through [+6 days]. *)
Definition sundayWeekOf (now : Date) : Date * Date :=
  let weekStart := addDays now (- getDay now) in
  (weekStart, addDays weekStart 6).

(** An expense of category [c] dated within the window [w]. *)
Definition isExpenseOfIn (c : string) (w : Date * Date) (t : Transaction) : bool :=
  isExpense t && String.eqb (t_category t) c
  && (fst w <=? t_date t) && (t_date t <=? snd w).

(** The dashboard percentage as the specification words it: the
    equal-weight average of [min(count / targetCount, 1) * 100], and 0
    without habits. *)
Definition clampedProgress (h : TodaysHabit) : Q :=
  (Qmin (inject_Z (th_count h) / inject_Z (h_targetCount (th_habit h))) 1 * 100)%Q.

Fixpoint sumQ (l : list Q) : Q :=
  match l with
  | [] => 0%Q
  | x :: l' => (x + sumQ l')%Q
  end.

Definition clampedCompletionPercentage (todaysHabits : list TodaysHabit) : Q :=
  match todaysHabits with
  | [] => 0%Q
  | _ => (sumQ (List.map clampedProgress todaysHabits)
          / inject_Z (Z.of_nat (length todaysHabits)))%Q
  end.

(** A habit with a target of 5, its 5 repetitions logged on the day of
    [sampleNow], and the target then lowered to 2. *)
Definition sampleOverTarget : HabitsState :=
  let created := mkHabitsState [mkHabit "h1" "Push-ups" "fitness" Daily 5] [] [] in
  let logged :=
    orElse (markHabitComplete (sampleNow + 1) "e1" created "h1" sampleNow 5)
           created in
  updateHabitTargetCount logged "h1" 2.


(** ** Further calculations (src/services/calculations.ts)

    A division by a non-zero literal is the rational quotient; every
    other division goes through [divide]. *)







(** Entries ordered by date, newest first. *)
Definition sortedByDateDesc (l : list HabitEntry) : Prop :=
  StronglySorted (fun a b => e_date b <= e_date a) l.

(** Entries of consecutive days, newest first: each is dated exactly one
    day before the one it follows. *)
Fixpoint consecutiveDays (l : list HabitEntry) : Prop :=
  match l with
  | a :: ((b :: _) as l') =>
      e_date b <= e_date a /\ differenceInDays (e_date a) (e_date b) = 1
      /\ consecutiveDays l'
  | _ => True
  end.


(** ** Further habit operations (src/contexts/HabitsContext.tsx) *)

(** [getHabitEntry(habitId, date)]; [None] is [null]. *)
Definition getHabitEntry (s : HabitsState) (habitId : string) (date : Date)
    : option HabitEntry :=
  let dateStr := formatDay (startOfDay date) in
  List.find (entryMatches habitId dateStr) (habitEntries s).

(** [deleteHabit(id)]: the habit and its entries are removed, from the
    table and from the state. *)
Definition deleteHabit (s : HabitsState) (id : string) : HabitsState :=
  mkHabitsState
    (List.filter (fun h => negb (String.eqb (h_id h) id)) (habits s))
    (List.filter (fun e => negb (String.eqb (e_habitId e) id)) (habitEntries s))
    (List.filter (fun r => negb (String.eqb (r_habit_id r) id)) (habit_entries s)).

Record HabitStreak := mkHabitStreak {
  hs_habitId : string;
  hs_currentStreak : Z;
  hs_longestStreak : Z;
  hs_lastCompletedDate : option Date;
  hs_completionRate : option Q
}.

Definition calculateHabitStreak (now : Date) (s : HabitsState) (habitId : string)
    : HabitStreak :=
  match findHabit (habits s) habitId with
  | None => mkHabitStreak habitId 0 0 None (Some 0%Q)
  | Some habit =>
      let entries :=
        sortByDateDesc
          (List.filter (fun e => String.eqb (e_habitId e) habitId) (habitEntries s)) in
      let r := calculateStreak now entries (h_frequency habit) in
      let lastCompleted := List.find e_completed entries in
      let thirtyDaysAgo := addDays now (- 30) in
      let recentEntries := List.filter (fun e => thirtyDaysAgo <=? e_date e) entries in
      let completionRate := calculateCompletionRate recentEntries 30 in
      mkHabitStreak habitId (current r) (longest r)
                    (option_map e_date lastCompleted) completionRate
  end.

Definition getHabitCompletionRate (now : Date) (s : HabitsState) (habitId : string)
    (days : Z) : option Q :=
  let cutoffDate := addDays now (- days) in
  let entries :=
    List.filter (fun e => String.eqb (e_habitId e) habitId && (cutoffDate <=? e_date e))
                (habitEntries s) in
  calculateCompletionRate entries days.

(** ** Habit toggles (HabitsDashboard, src/unnamed/part_006, and
       src/screens/habits/HabitDetails.tsx)

    A handler that catches the error of a failed write leaves the state
    as it was. *)

Definition handleHabitToggle (now : Date) (id : string) (s : HabitsState)
    (habitId : string) (isCompleted : bool) (currentCount targetCount : Z)
    : HabitsState :=
  let today := startOfDay now in
  if targetCount =? 1 then
    if isCompleted then markHabitIncomplete now s habitId today
    else orElse (markHabitComplete now id s habitId today 1) s
  else
    if isCompleted then markHabitIncomplete now s habitId today
    else orElse (markHabitComplete now id s habitId today targetCount) s.

(** [entry?.completed || false] and [entry?.count || 0] *)
Definition entryCompleted (entry : option HabitEntry) : bool :=
  match entry with Some e => e_completed e | None => false end.

Definition entryCount (entry : option HabitEntry) : Z :=
  match entry with Some e => e_count e | None => 0 end.

(** The [onToggle] of a habit's row in the dashboard list. *)
Definition onToggle (now : Date) (id : string) (s : HabitsState) (habit : Habit)
    : HabitsState :=
  let today := startOfDay now in
  let entry := getHabitEntry s (h_id habit) today in
  handleHabitToggle now id s (h_id habit) (entryCompleted entry)
                    (entryCount entry) (h_targetCount habit).

(** [handleIncrementCount] and [handleDecrementCount] of the details
    screen of [habit]. *)
Definition handleIncrementCount (now : Date) (id : string) (s : HabitsState)
    (habit : Habit) : HabitsState :=
  let todayCount := entryCount (getHabitEntry s (h_id habit) (startOfDay now)) in
  let today := startOfDay now in
  let newCount := Z.min (todayCount + 1) (h_targetCount habit) in
  orElse (markHabitComplete now id s (h_id habit) today newCount) s.

Definition handleDecrementCount (now : Date) (id : string) (s : HabitsState)
    (habit : Habit) : HabitsState :=
  let todayCount := entryCount (getHabitEntry s (h_id habit) (startOfDay now)) in
  let today := startOfDay now in
  let newCount := Z.max (todayCount - 1) 0 in
  if newCount =? 0 then markHabitIncomplete now s (h_id habit) today
  else orElse (markHabitComplete now id s (h_id habit) today newCount) s.


(** ** Goals (src/contexts/FinanceContext.tsx, GoalsScreen in
       src/unnamed/part_005)

    Where a function writes the same change to its table and to the React
    state and reads the state only, the state alone is modelled. *)

Record Goal := mkGoal {
  g_id : string;
  g_name : string;
  g_targetAmount : Q;
  g_currentAmount : Q;
  g_deadline : option Date;
  g_updatedAt : Date
}.

Inductive FinanceError := GoalNotFound.

(** [goals.find(g => g.id === goalId)] *)
Definition findGoal (goals : list Goal) (goalId : string) : option Goal :=
  List.find (fun g => String.eqb (g_id g) goalId) goals.

(** [{ ...g, currentAmount, updatedAt: now }] *)
Definition setCurrentAmount (currentAmount : Q) (now : Date) (g : Goal) : Goal :=
  mkGoal (g_id g) (g_name g) (g_targetAmount g) currentAmount (g_deadline g) now.

Definition addGoalContribution (now : Date) (goals : list Goal)
    (goalId : string) (amount : Q) : FinanceError + list Goal :=
  match findGoal goals goalId with
  | None => inl GoalNotFound
  | Some goal =>
      let newCurrentAmount := (g_currentAmount goal + amount)%Q in
      inr (mapWhere (fun g => String.eqb (g_id g) goalId)
                    (setCurrentAmount newCurrentAmount now) goals)
  end.

Inductive ContributionType := Deposit | Withdrawal.

(** [submitContribution] of the goals screen, for a selected goal and an
    entered amount that parses to the number [baseAmount]; a rejected
    or failed contribution leaves the goals as they are. *)
Definition submitContribution (now : Date) (goals : list Goal)
    (selectedGoal : Goal) (baseAmount : Q) (contributionType : ContributionType)
    : list Goal :=
  if Qle_bool baseAmount 0 then goals
  else
    let finalAmount :=
      match contributionType with
      | Withdrawal => (- baseAmount)%Q
      | Deposit => baseAmount
      end in
    let overdraw :=
      match contributionType with
      | Withdrawal => Qltb (g_currentAmount selectedGoal + finalAmount) 0
      | Deposit => false
      end in
    if overdraw then goals
    else
      match addGoalContribution now goals (g_id selectedGoal) finalAmount with
      | inr goals' => goals'
      | inl _ => goals
      end.

Record GoalProgress := mkGoalProgress {
  gp_percentage : Q;
  gp_remaining : Q
}.

(** [getGoalProgress] of the goals screen. *)
Definition getGoalProgress (goal : Goal) : option GoalProgress :=
  let targetAmount := orZero (Some (g_targetAmount goal)) in
  let currentAmount := orZero (Some (g_currentAmount goal)) in
  percentage ← (if Qpositive targetAmount
                then q ← divide currentAmount targetAmount; Some (q * 100)%Q
                else Some 0%Q);
  Some (mkGoalProgress (Qmin percentage 100)
                       (Qmax (targetAmount - currentAmount) 0)).

Definition sampleGoals : list Goal :=
  [mkGoal "g1" "Holiday" 1000 400 None 0;
   mkGoal "g2" "Bike" 500 500 None 0].


(** ** Transactions and the budgets' cached spending
       (src/contexts/FinanceContext.tsx) *)

(** A row of the [transactions] table; its date is the day of the
    transaction (['yyyy-MM-dd']). *)
Record TransactionRow := mkTransactionRow {
  tr_id : string;
  tr_amount : Q;
  tr_category : string;
  tr_description : string;
  tr_date : Z;
  tr_type : TransactionType
}.

(** The [transactions] and [budgets] React state and the [transactions]
    table. *)
Record FinanceState := mkFinanceState {
  fin_transactions : list Transaction;
  fin_budgets : list Budget;
  fin_rows : list TransactionRow
}.

(** The day strings the spending of a budget is queried between. *)
Definition budgetPeriodDays (now : Date) (budget : Budget) : Z * Z :=
  match b_period budget with
  | Monthly => (formatDay (startOfMonth now), formatDay (endOfMonth now))
  | Weekly =>
      let today := now in
      let weekStart := addDays today (- getDay today) in
      let weekEnd := addDays weekStart 6 in
      (formatDay weekStart, formatDay weekEnd)
  end.

(** [WHERE category = ? AND type = 'expense' AND date BETWEEN ? AND ?] *)
Definition rowInBudgetPeriod (category : string) (period : Z * Z)
    (r : TransactionRow) : bool :=
  String.eqb (tr_category r) category
  && TransactionType_eqb (tr_type r) Expense
  && (fst period <=? tr_date r) && (tr_date r <=? snd period).

(** [SELECT SUM(amount) as total]: [NULL] when no row matches. *)
Definition sumAmountColumn (rows : list TransactionRow) : option Q :=
  match rows with
  | [] => None
  | _ => Some (fold_left (fun sum r => (sum + tr_amount r)%Q) rows 0%Q)
  end.

(** [{ ...budget, spent }] *)
Definition setSpent (spent : Q) (b : Budget) : Budget :=
  mkBudget (b_id b) (b_category b) (b_amount b) (b_period b) spent (b_startDate b).

(** [spentResult?.total || 0] for one budget. *)
Definition queriedSpent (now : Date) (rows : list TransactionRow) (budget : Budget) : Q :=
  orZero (sumAmountColumn
            (List.filter (rowInBudgetPeriod (b_category budget)
                                            (budgetPeriodDays now budget))
                         rows)).

Record BudgetAlert := mkBudgetAlert {
  al_budgetId : string;
  al_category : string;
  al_percentage : Q
}.

(** The alert [updateBudgetSpending] schedules for a budget, if any. *)
Definition budgetAlert (spent : Q) (budget : Budget) : option BudgetAlert :=
  spentPercentage ← (if Qpositive (b_amount budget)
                     then q ← divide spent (b_amount budget); Some (q * 100)%Q
                     else Some 0%Q);
  if Qle_bool 80 spentPercentage
  then Some (mkBudgetAlert (b_id budget) (b_category budget) spentPercentage)
  else None.

(** [updateBudgetSpending]: the budgets with their spending queried
    anew, and the alerts scheduled on the way. *)
Definition updateBudgetSpending (now : Date) (rows : list TransactionRow)
    (budgets : list Budget) : list Budget * list BudgetAlert :=
  (List.map (fun budget => setSpent (queriedSpent now rows budget) budget) budgets,
   List.flat_map (fun budget =>
                    match budgetAlert (queriedSpent now rows budget) budget with
                    | Some a => [a]
                    | None => []
                    end)
                 budgets).

Definition toRow (t : Transaction) : TransactionRow :=
  mkTransactionRow (t_id t) (t_amount t) (t_category t) (t_description t)
                   (formatDay (t_date t)) (t_type t).

(** [addTransaction(transaction)]; [id] is [Date.now().toString()]. *)
Definition addTransaction (now : Date) (id : string) (st : FinanceState)
    (transaction : Transaction) : FinanceState :=
  let newTransaction :=
    mkTransaction id (t_amount transaction) (t_category transaction)
                  (t_description transaction) (t_date transaction)
                  (t_type transaction) in
  let rows := fin_rows st ++ [toRow newTransaction] in
  mkFinanceState (newTransaction :: fin_transactions st)
                 (fst (updateBudgetSpending now rows (fin_budgets st)))
                 rows.

Definition deleteTransaction (now : Date) (st : FinanceState) (id : string)
    : FinanceState :=
  let rows := List.filter (fun r => negb (String.eqb (tr_id r) id)) (fin_rows st) in
  mkFinanceState
    (List.filter (fun t => negb (String.eqb (t_id t) id)) (fin_transactions st))
    (fst (updateBudgetSpending now rows (fin_budgets st)))
    rows.

(** The table holds the rows of the transactions of the state. *)
Definition tableMirrors (st : FinanceState) : Prop :=
  Permutation (List.map toRow (fin_transactions st)) (fin_rows st).


Definition sampleFinance : FinanceState :=
  mkFinanceState sampleTransactions [sampleFoodBudget]
                 (List.map toRow sampleTransactions).


(** ** Body measurements and weight entries
       (src/types/health.ts, src/contexts/HealthContext.tsx) *)

Record Measurements := mkMeasurements {
  ms_height : option Q;
  ms_waist : option Q;
  ms_chest : option Q;
  ms_hip : option Q;
  ms_neck : option Q;
  ms_bicep : option Q;
  ms_thigh : option Q
}.

Record UserProfile := mkUserProfile {
  up_age : option Q;
  up_height : option Q;
  up_gender : option Gender;
  up_targetWeight : option Q
}.

(** Truthiness of an optional number: absent and [0] are falsy. *)
Definition present (x : option Q) : bool :=
  match x with Some v => truthy v | None => false end.

Section BodyFatFromMeasurements.

Variable log10 : Q -> option Q.

(** [calculateBodyFatFromMeasurements]; [None] is [null]. *)
Definition calculateBodyFatFromMeasurements (userProfile : option UserProfile)
    (measurements : Measurements) : option Q :=
  match userProfile with
  | None => None
  | Some profile =>
      match up_gender profile with
      | None => None
      | Some gender =>
          let height := ms_height measurements in
          let waist := ms_waist measurements in
          let neck := ms_neck measurements in
          let hip := ms_hip measurements in
          if negb (present height) || negb (present waist) || negb (present neck)
          then None
          else if match gender with Female => negb (present hip) | Male => false end
          then None
          else
            match height, waist, neck with
            | Some height, Some waist, Some neck =>
                match calculateBodyFat log10 gender waist neck height hip Metric with
                | None => None
                | Some bodyFat =>
                    if Qltb bodyFat 3 || Qltb 50 bodyFat then None
                    else Some bodyFat
                end
            | _, _, _ => None
            end
      end
  end.

End BodyFatFromMeasurements.

(** [addWeightEntry(entry)]; [id] is [Date.now().toString()]. *)
Definition addWeightEntry (id : string) (weightEntries : list WeightEntry)
    (entry : WeightEntry) : list WeightEntry :=
  mkWeightEntry id (w_weight entry) (w_date entry) :: weightEntries.

Definition deleteWeightEntry (weightEntries : list WeightEntry) (id : string)
    : list WeightEntry :=
  List.filter (fun w => negb (String.eqb (w_id w) id)) weightEntries.

(** [getLatestWeight()]; [None] is [null]. *)
Definition getLatestWeight (weightEntries : list WeightEntry) : option WeightEntry :=
  match weightEntries with
  | [] => None
  | first :: _ => Some first
  end.


(** [Math.log10] at the two arguments the sample measurements need, to
    four decimals. *)
Definition sampleLog10 (x : Q) : option Q :=
  if Qeq_bool x 47 then Some 1.6721%Q
  else if Qeq_bool x 175 then Some 2.2430%Q
  else None.

Definition sampleProfile : UserProfile :=
  mkUserProfile (Some 30%Q) (Some 175%Q) (Some Male) None.

(** Height 175, waist 85, neck 38. *)
Definition sampleMeasurements : Measurements :=
  mkMeasurements (Some 175%Q) (Some 85%Q) None None (Some 38%Q) None None.


(** Entries in which each is dated no later than the one it follows. *)
Fixpoint descendingDays (l : list HabitEntry) : Prop :=
  match l with
  | a :: ((b :: _) as l') => e_date b <= e_date a /\ descendingDays l'
  | _ => True
  end.

(** ** Daily spending of the month (AnalyticsScreen, src/unnamed/part_004) *)



(** * Properties *)

(** ** Dates *)

Lemma msPerDay_pos : 0 < msPerDay.
Proof. reflexivity. Qed.

Lemma dayNumber_startOfDay (d : Date) : dayNumber (startOfDay d) = dayNumber d.
Proof.
  unfold startOfDay, dayNumber.
  apply Z.div_mul. pose proof msPerDay_pos. lia.
Qed.

Lemma differenceInDays_startOfDay (now : Date) :
  differenceInDays now (startOfDay now) = 0.
Proof.
  unfold differenceInDays, startOfDay, dayNumber.
  pose proof msPerDay_pos as Hpos.
  pose proof (Z.mod_pos_bound now msPerDay Hpos) as Hb.
  pose proof (Z.div_mod now msPerDay ltac:(lia)) as Hdm.
  apply Z.quot_small. lia.
Qed.

Lemma differenceInDays_addDays (d : Date) (n k : Z) :
  differenceInDays (addDays d n) (addDays d k) = n - k.
Proof.
  unfold differenceInDays, addDays.
  replace (d + n * msPerDay - (d + k * msPerDay)) with ((n - k) * msPerDay) by lia.
  apply Z.quot_mul. pose proof msPerDay_pos. lia.
Qed.

Lemma addDays_le (d : Date) (n k : Z) : n <= k -> addDays d n <= addDays d k.
Proof. unfold addDays. pose proof msPerDay_pos. nia. Qed.

(** ** Habit streaks *)

Lemma streakIteration_current_bound now f prev e s :
  0 <= currentStreak s <= 1 ->
  0 <= currentStreak (streakIteration now f prev e s) <= 1.
Proof.
  intros Hs. unfold streakIteration.
  destruct (e_completed e); cbn [negb].
  - destruct prev as [p|]; cbn.
    + destruct (frequency_is_daily f && _); cbn; lia.
    + destruct (frequency_is_daily f && _); cbn; lia.
  - destruct prev; cbn; lia.
Qed.

Lemma streakLoop_current_bound now f l : forall prev s,
  0 <= currentStreak s <= 1 ->
  0 <= currentStreak (streakLoop now f prev l s) <= 1.
Proof.
  induction l as [|e l IH]; intros prev s Hs; cbn [streakLoop].
  - exact Hs.
  - apply IH. now apply streakIteration_current_bound.
Qed.

(** Whatever the history, the loop sets [currentStreak] only at the most
    recent entry: the reported current streak is 0 or 1. *)
Lemma calculateStreak_current_le_1 now entries f :
  0 <= current (calculateStreak now entries f) <= 1.
Proof.
  unfold calculateStreak. destruct entries as [|e l]; cbn [current]; [lia|].
  apply streakLoop_current_bound. cbn. lia.
Qed.

(** C1.  Completed entries on today, today-1 and today-2 and nothing
    earlier: [calculateStreak] reports [longest = 3] but [current = 1],
    not 3, because [currentStreak] is assigned at the first (newest)
    entry only and never advanced on the following consecutive days. *)
Theorem calculateStreak_three_day_run (now : Date) (habitId : string) :
  let today := startOfDay now in
  calculateStreak now
    [completedEntry "1" habitId today;
     completedEntry "2" habitId (addDays today (-1));
     completedEntry "3" habitId (addDays today (-2))] Daily
  = mkStreak 1 3.
Proof.
  intros today. unfold calculateStreak, sortByDateDesc.
  cbn [fold_right insertByDateDesc completedEntry e_date].
  pose proof (addDays_le today (-2) (-1) ltac:(lia)) as H21.
  pose proof (addDays_le today (-1) 0 ltac:(lia)) as H10.
  replace (addDays today 0) with today in H10 by (unfold addDays; lia).
  apply Z.leb_le in H21, H10. rewrite H21.
  cbn [insertByDateDesc completedEntry e_date]. rewrite H10.
  cbn [streakLoop]. unfold streakIteration.
  cbn [completedEntry e_completed e_date negb frequency_is_daily andb].
  replace (differenceInDays now today) with 0
    by (symmetry; apply differenceInDays_startOfDay).
  replace (differenceInDays today (addDays today (-1))) with 1.
  2:{ replace today with (addDays today 0) at 1 by (unfold addDays; lia).
      now rewrite differenceInDays_addDays. }
  rewrite differenceInDays_addDays.
  reflexivity.
Qed.

(** ** Finance *)

Lemma fold_sum_shift (l : list Transaction) (a : Q) :
  (fold_left (fun sum t => sum + t_amount t) l a
   == a + fold_left (fun sum t => sum + t_amount t) l 0)%Q.
Proof.
  revert a. induction l as [|t l IH]; intros a; cbn [fold_left].
  - lra.
  - rewrite (IH (a + t_amount t)%Q), (IH (0 + t_amount t)%Q). lra.
Qed.

Lemma sumAmounts_cons (t : Transaction) (l : list Transaction) :
  (sumAmounts (t :: l) == t_amount t + sumAmounts l)%Q.
Proof.
  unfold sumAmounts. cbn [fold_left]. rewrite fold_sum_shift. lra.
Qed.

Lemma sumAmounts_filter (p : Transaction -> bool) (l : list Transaction) :
  (sumAmounts (List.filter p l) == sumOfAmountsWhere p l)%Q.
Proof.
  induction l as [|t l IH]; cbn [List.filter sumOfAmountsWhere].
  - reflexivity.
  - destruct (p t); [rewrite sumAmounts_cons, IH|]; auto with qarith.
Qed.

Lemma sumOfAmountsWhere_ext (p q : Transaction -> bool) (l : list Transaction) :
  (forall t, p t = q t) -> sumOfAmountsWhere p l = sumOfAmountsWhere q l.
Proof.
  intros Hpq. induction l as [|t l IH]; cbn; [reflexivity|].
  now rewrite Hpq, IH.
Qed.

Lemma sumAmounts_nonneg (l : list Transaction) :
  Forall (fun t => (0 <= t_amount t)%Q) l -> (0 <= sumAmounts l)%Q.
Proof.
  induction 1 as [|t l Ht _ IH].
  - unfold sumAmounts; cbn. lra.
  - rewrite sumAmounts_cons. lra.
Qed.

Lemma Forall_filter_keep {A} (P : A -> Prop) (p : A -> bool) (l : list A) :
  Forall P l -> Forall P (List.filter p l).
Proof.
  induction 1 as [|x l Hx _ IH]; cbn; [constructor|].
  destruct (p x); [constructor|]; assumption.
Qed.

Lemma getMonthlySpending_nonneg now budgets transactions category :
  Forall (fun t => (0 <= t_amount t)%Q) transactions ->
  (0 <= getMonthlySpending now budgets transactions category)%Q.
Proof.
  intros Hall. unfold getMonthlySpending.
  destruct (spendingWindow now _) as [periodStart periodEnd].
  now apply sumAmounts_nonneg, Forall_filter_keep.
Qed.

Lemma Qpositive_true (x : Q) : (0 < x)%Q -> Qpositive x = true.
Proof.
  intros Hx. unfold Qpositive.
  destruct (Qle_bool x 0) eqn:E; [|reflexivity].
  apply Qle_bool_iff in E. lra.
Qed.

Lemma Qpositive_false (x : Q) : (x <= 0)%Q -> Qpositive x = false.
Proof.
  intros Hx. unfold Qpositive.
  apply Qle_bool_iff in Hx. now rewrite Hx.
Qed.

Lemma divide_nonzero (x y : Q) : ~ (y == 0)%Q -> divide x y = Some (x / y)%Q.
Proof.
  intros Hy. unfold divide. destruct (Qeq_bool y 0) eqn:E; [|reflexivity].
  apply Qeq_bool_iff in E. contradiction.
Qed.

(** The body of [getBudgetProgress] always has a value: the division is
    behind the guard. *)
Lemma budgetProgressOf_value (spent amount : Q) :
  exists percentage,
    budgetProgressOf spent amount
    = Some (mkBudgetProgress spent (Qmin percentage 100)
                             (Qmax (amount - spent) 0)) /\
    ((0 < amount)%Q -> percentage = (spent / amount * 100)%Q) /\
    ((amount <= 0)%Q -> percentage = 0%Q).
Proof.
  unfold budgetProgressOf. destruct (Qpositive amount) eqn:E.
  - assert (Hpos : (0 < amount)%Q).
    { unfold Qpositive in E. apply negb_true_iff in E.
      destruct (Qlt_le_dec 0 amount) as [H|H]; [exact H|].
      apply Qle_bool_iff in H. congruence. }
    rewrite divide_nonzero by lra. cbn.
    eexists. split; [reflexivity|]. split; [reflexivity|]. intros; lra.
  - cbn. eexists. split; [reflexivity|]. split; [|reflexivity].
    intros Hpos. rewrite (Qpositive_true _ Hpos) in E. discriminate.
Qed.

(** C2.  [getBudgetProgress] always returns a value; for a budget of
    positive amount its [percentage] is [min(spent / amount * 100, 100)],
    and for every budget [remaining = max(amount - spent, 0)], where
    [spent] is the spending the function reads for the budget's category;
    whatever the amounts, [percentage <= 100] and [remaining >= 0]. *)
Theorem getBudgetProgress_clamped now budgets transactions budget :
  let amount := b_amount budget in
  exists p,
    getBudgetProgress now budgets transactions budget = Some p /\
    spent p = getMonthlySpending now budgets transactions (b_category budget) /\
    ((0 < amount)%Q ->
     (percentage p == Qmin (spent p / amount * 100) 100)%Q) /\
    (remaining p == Qmax (amount - spent p) 0)%Q /\
    (percentage p <= 100)%Q /\
    (0 <= remaining p)%Q.
Proof.
  cbn zeta. unfold getBudgetProgress.
  set (sp := getMonthlySpending now budgets transactions (b_category budget)).
  destruct (budgetProgressOf_value sp (b_amount budget)) as (pc & -> & Hpos & _).
  eexists. split; [reflexivity|]. cbn [spent percentage remaining].
  split; [reflexivity|]. split; [|split; [|split]].
  - intros H. rewrite (Hpos H). reflexivity.
  - reflexivity.
  - apply Q.le_min_r.
  - apply Q.le_max_r.
Qed.

(** The specification's scenario: 100 + 50 spent on food against a
    monthly food budget of 200 is 75 percent used, 50 remaining. *)
Lemma getBudgetProgress_clamped_witness :
  (0 < b_amount sampleFoodBudget)%Q /\
  exists p,
    getBudgetProgress sampleNow [sampleFoodBudget] sampleTransactions
                      sampleFoodBudget = Some p /\
    (percentage p == Qmin (spent p / b_amount sampleFoodBudget * 100) 100)%Q /\
    (percentage p == 75)%Q /\ (remaining p == 50)%Q.
Proof.
  assert (Hpos : (0 < b_amount sampleFoodBudget)%Q) by (vm_compute; reflexivity).
  split; [exact Hpos|].
  destruct (getBudgetProgress_clamped sampleNow [sampleFoodBudget]
              sampleTransactions sampleFoodBudget)
    as (p & Hp & _ & Hpc & _).
  exists p. split; [exact Hp|]. split; [exact (Hpc Hpos)|].
  assert (Hv : getBudgetProgress sampleNow [sampleFoodBudget] sampleTransactions
                                 sampleFoodBudget
               = Some (mkBudgetProgress (0 + 100 + 50) (Qmin ((0 + 100 + 50) / 200 * 100) 100)
                                        (Qmax (200 - (0 + 100 + 50)) 0)))
    by reflexivity.
  rewrite Hv in Hp. injection Hp as <-.
  split; vm_compute; reflexivity.
Defined.

(** C9.  The budget-progress computations never divide by zero: both
    always return a value.  With a budget amount of 0 the percentage of
    [getBudgetProgress] is 0 and [calculateBudgetProgress] returns 0, for
    every spent value; the remaining amount is 0 as well, the spending
    read from transactions of non-negative amounts being non-negative. *)
Theorem budget_progress_zero_amount now budgets transactions budget (anySpent : Q) :
  (forall spent amount,
      is_Some (budgetProgressOf spent amount) /\
      is_Some (calculateBudgetProgress spent amount)) /\
  ((b_amount budget == 0)%Q ->
   (exists p,
       getBudgetProgress now budgets transactions budget = Some p /\
       (percentage p == 0)%Q /\
       (Forall (fun t => (0 <= t_amount t)%Q) transactions ->
        (remaining p == 0)%Q)) /\
   (exists p,
       budgetProgressOf anySpent (b_amount budget) = Some p /\
       (percentage p == 0)%Q) /\
   calculateBudgetProgress anySpent (b_amount budget) = Some 0%Q).
Proof.
  split.
  - intros sp amount. split.
    + destruct (budgetProgressOf_value sp amount) as (pc & -> & _). eauto.
    + unfold calculateBudgetProgress.
      destruct (Qeq_bool amount 0) eqn:E; [eauto|].
      rewrite divide_nonzero; [cbn; eauto|].
      intros H. apply Qeq_bool_iff in H. congruence.
  - intros Hz. split; [|split].
    + unfold getBudgetProgress.
      set (sp := getMonthlySpending now budgets transactions (b_category budget)).
      destruct (budgetProgressOf_value sp (b_amount budget))
        as (pc & -> & _ & Hzero).
      eexists. split; [reflexivity|]. cbn [percentage remaining].
      rewrite Hzero by lra. split; [reflexivity|].
      intros Hall.
      pose proof (getMonthlySpending_nonneg now budgets _ (b_category budget) Hall)
        as Hsp. fold sp in Hsp.
      destruct (Q.max_spec (b_amount budget - sp) 0) as [[_ ->]|[Hle ->]]; lra.
    + destruct (budgetProgressOf_value anySpent (b_amount budget))
        as (pc & -> & _ & Hzero).
      eexists. split; [reflexivity|]. cbn [percentage].
      rewrite Hzero by lra. reflexivity.
    + unfold calculateBudgetProgress.
      apply Qeq_bool_iff in Hz. now rewrite Hz.
Qed.

Lemma budget_progress_zero_amount_witness :
  (b_amount sampleZeroBudget == 0)%Q /\
  (exists p,
      getBudgetProgress sampleNow [sampleZeroBudget] sampleTransactions
                        sampleZeroBudget = Some p /\
      (percentage p == 0)%Q /\ (remaining p == 0)%Q) /\
  calculateBudgetProgress 150 (b_amount sampleZeroBudget) = Some 0%Q.
Proof.
  assert (Hz : (b_amount sampleZeroBudget == 0)%Q) by reflexivity.
  split; [exact Hz|].
  destruct (proj2 (budget_progress_zero_amount sampleNow
                     [sampleZeroBudget] sampleTransactions
                     sampleZeroBudget 150) Hz)
    as ((p & Hp & Hpc & Hr) & _ & Hc).
  split; [|exact Hc].
  exists p. split; [exact Hp|]. split; [exact Hpc|].
  apply Hr. unfold sampleTransactions.
  repeat constructor; cbn; discriminate.
Defined.

Lemma TransactionType_eqb_Income (t : Transaction) :
  TransactionType_eqb (t_type t) Income = isIncome t.
Proof. unfold isIncome. now destruct (t_type t). Qed.

Lemma TransactionType_eqb_Expense (t : Transaction) :
  TransactionType_eqb (t_type t) Expense = isExpense t.
Proof. unfold isExpense. now destruct (t_type t). Qed.

Lemma sumAmounts_filter_filter (p q : Transaction -> bool) (l : list Transaction) :
  (sumAmounts (List.filter q (List.filter p l))
   == sumOfAmountsWhere (fun t => q t && p t) l)%Q.
Proof.
  rewrite sumAmounts_filter.
  induction l as [|t l IH]; cbn [List.filter sumOfAmountsWhere].
  - reflexivity.
  - destruct (p t); cbn [sumOfAmountsWhere].
    + rewrite andb_true_r. destruct (q t); rewrite IH; reflexivity.
    + rewrite andb_false_r. exact IH.
Qed.

(** C3.  [getMonthlyBalance] returns as income the sum of the amounts of
    the income transactions dated within
    [startOfMonth(now), endOfMonth(now)], both ends included, as expenses
    the same sum over the expense transactions, and
    [balance = income - expenses]; a transaction dated outside the month
    changes nothing in the result. *)
Theorem getMonthlyBalance_spec now (transactions : list Transaction) :
  let r := getMonthlyBalance now transactions in
  (income r == sumOfAmountsWhere (fun t => isIncome t && inMonthOf now t)
                                 transactions)%Q /\
  (expenses r == sumOfAmountsWhere (fun t => isExpense t && inMonthOf now t)
                                   transactions)%Q /\
  balance r = (income r - expenses r)%Q /\
  (forall before after t,
      transactions = before ++ t :: after ->
      inMonthOf now t = false ->
      getMonthlyBalance now (before ++ after) = r).
Proof.
  cbn zeta. unfold getMonthlyBalance; cbn [income expenses balance].
  split; [|split; [|split]].
  - rewrite sumAmounts_filter_filter.
    erewrite sumOfAmountsWhere_ext; [reflexivity|].
    intros t. cbn beta. now rewrite TransactionType_eqb_Income.
  - rewrite sumAmounts_filter_filter.
    erewrite sumOfAmountsWhere_ext; [reflexivity|].
    intros t. cbn beta. now rewrite TransactionType_eqb_Expense.
  - reflexivity.
  - intros before after t -> Hout.
    rewrite !List.filter_app. cbn [List.filter].
    unfold inMonthOf in Hout. rewrite Hout. reflexivity.
Qed.

(** In January 2024, a salary and a food expense of the month and a
    December expense: the December expense is not counted. *)
Lemma getMonthlyBalance_spec_witness :
  let dec := mkTransaction "t0" 30 "food" "old" (19720 * msPerDay) Expense in
  let jan := [mkTransaction "t1" 1000 "salary" "pay" (19737 * msPerDay) Income;
              mkTransaction "t2" 40 "food" "lunch" (19738 * msPerDay) Expense] in
  inMonthOf sampleNow dec = false /\
  getMonthlyBalance sampleNow jan = getMonthlyBalance sampleNow (dec :: jan) /\
  (balance (getMonthlyBalance sampleNow (dec :: jan)) == 960)%Q.
Proof.
  cbn zeta.
  assert (Hout : inMonthOf sampleNow
                   (mkTransaction "t0" 30 "food" "old" (19720 * msPerDay) Expense)
                 = false) by (vm_compute; reflexivity).
  split; [exact Hout|]. split.
  - exact (proj2 (proj2 (proj2 (getMonthlyBalance_spec sampleNow _)))
             [] _ _ eq_refl Hout).
  - vm_compute; reflexivity.
Defined.

(** ** Health *)

(** C7.  For a female subject with no hip measurement, [calculateBodyFat]
    returns the sentinel 0, whatever the other measurements and the unit,
    also where the logarithms of the formula would have no value. *)
Theorem calculateBodyFat_female_without_hip
    (log10 : Q -> option Q) (waist neck height : Q) (unit : MeasurementUnit) :
  calculateBodyFat log10 Female waist neck height None unit = Some 0%Q.
Proof. reflexivity. Qed.

Lemma newestFirst_filter (p : WeightEntry -> bool) (l : list WeightEntry) :
  newestFirst l -> newestFirst (List.filter p l).
Proof.
  unfold newestFirst. induction 1 as [|x l Hs IH Hx]; cbn [List.filter].
  - constructor.
  - destruct (p x); [|exact IH].
    constructor; [exact IH|]. now apply Forall_filter_keep.
Qed.

Lemma newestFirst_head (l : list WeightEntry) (a : WeightEntry) :
  newestFirst l -> nth_error l 0 = Some a ->
  forall e, In e l -> w_date e <= w_date a.
Proof.
  intros Hs Ha e He. destruct l as [|x l]; [discriminate|].
  cbn in Ha. injection Ha as ->.
  apply StronglySorted_inv in Hs as [_ Hall].
  destruct He as [->|He]; [lia|].
  rewrite List.Forall_forall in Hall. now apply Hall.
Qed.

Lemma nth_error_last_cons {A} (x y : A) (l : list A) :
  nth_error (x :: y :: l) (length (x :: y :: l) - 1)
  = nth_error (y :: l) (length (y :: l) - 1).
Proof.
  cbn [length]. replace (S (S (length l)) - 1)%nat with (S (length l)) by lia.
  replace (S (length l) - 1)%nat with (length l) by lia. reflexivity.
Qed.

Lemma newestFirst_last (l : list WeightEntry) (z : WeightEntry) :
  newestFirst l -> nth_error l (length l - 1) = Some z ->
  In z l /\ forall e, In e l -> w_date z <= w_date e.
Proof.
  unfold newestFirst. induction 1 as [|x l Hs IH Hx]; intros Hz.
  - discriminate.
  - destruct l as [|y l].
    + cbn in Hz. injection Hz as ->. split; [now left|].
      intros e [->|[]]. lia.
    + rewrite nth_error_last_cons in Hz.
      destruct (IH Hz) as [Hin Hmin]. split; [now right|].
      intros e [->|He]; [|now apply Hmin].
      rewrite List.Forall_forall in Hx. now apply Hx.
Qed.

Lemma filter_length_le {A} (p : A -> bool) (l : list A) :
  (length (List.filter p l) <= length l)%nat.
Proof.
  induction l as [|x l IH]; cbn; [lia|]. destruct (p x); cbn; lia.
Qed.

Lemma Qltb_true (x y : Q) : (x < y)%Q -> Qltb x y = true.
Proof.
  intros H. unfold Qltb. destruct (Qle_bool y x) eqn:E; [|reflexivity].
  apply Qle_bool_iff in E. lra.
Qed.

Lemma Qltb_false (x y : Q) : (y <= x)%Q -> Qltb x y = false.
Proof.
  intros H. unfold Qltb. apply Qle_bool_iff in H. now rewrite H.
Qed.

(** C8.  On a list ordered newest first: with fewer than two entries in
    the last [days] days, [getWeightTrend] returns [stable] and 0;
    otherwise, with [change] the weight of the newest entry of the window
    minus that of the oldest, it returns [stable] when [|change| < 0.1],
    else [up] for a positive and [down] for a negative change, and the
    absolute value of [change]; the returned change is never negative. *)
Theorem getWeightTrend_spec now (weightEntries : list WeightEntry) (days : Z) :
  newestFirst weightEntries ->
  let recent := List.filter (inLastDays now days) weightEntries in
  let r := getWeightTrend now weightEntries days in
  ((length recent < 2)%nat -> r = mkWeightTrend Stable 0) /\
  ((2 <= length recent)%nat ->
   exists newest oldest,
     nth_error recent 0 = Some newest /\
     nth_error recent (length recent - 1) = Some oldest /\
     (forall e, In e recent -> w_date oldest <= w_date e <= w_date newest) /\
     let c := (w_weight newest - w_weight oldest)%Q in
     change r = Qabs c /\
     ((Qabs c < 0.1)%Q -> trend r = Stable) /\
     ((0.1 <= Qabs c)%Q -> (0 < c)%Q -> trend r = Up) /\
     ((0.1 <= Qabs c)%Q -> (c < 0)%Q -> trend r = Down)) /\
  (0 <= change r)%Q.
Proof.
  intros Hsorted recent r.
  assert (Hfew : (length recent < 2)%nat -> r = mkWeightTrend Stable 0).
  { intros Hlt. subst r. unfold getWeightTrend.
    destruct (length weightEntries <? 2)%nat; [reflexivity|].
    fold (inLastDays now days). change (List.filter _ weightEntries) with recent.
    apply Nat.ltb_lt in Hlt. now rewrite Hlt. }
  assert (Hmany : (2 <= length recent)%nat ->
                  r = let c := (weightAt recent 0
                                - weightAt recent (length recent - 1))%Q in
                      mkWeightTrend
                        (if Qltb (Qabs c) 0.1 then Stable
                         else if Qpositive c then Up else Down)
                        (Qabs c)).
  { intros Hge. subst r. unfold getWeightTrend.
    pose proof (filter_length_le (inLastDays now days) weightEntries) as Hlen.
    fold recent in Hlen.
    replace (length weightEntries <? 2)%nat with false
      by (symmetry; apply Nat.ltb_ge; lia).
    change (List.filter _ weightEntries) with recent.
    replace (length recent <? 2)%nat with false
      by (symmetry; apply Nat.ltb_ge; lia).
    reflexivity. }
  split; [exact Hfew|]. split.
  - intros Hge. specialize (Hmany Hge).
    destruct (nth_error recent 0) as [newest|] eqn:Hn.
    2:{ apply nth_error_None in Hn. lia. }
    destruct (nth_error recent (length recent - 1)) as [oldest|] eqn:Ho.
    2:{ apply nth_error_None in Ho. lia. }
    exists newest, oldest.
    pose proof (newestFirst_filter (inLastDays now days) _ Hsorted) as Hrs.
    fold recent in Hrs.
    destruct (newestFirst_last recent oldest Hrs Ho) as [_ Hmin].
    pose proof (newestFirst_head recent newest Hrs Hn) as Hmax.
    split; [reflexivity|]. split; [reflexivity|].
    split; [intros e He; split; [now apply Hmin | now apply Hmax]|].
    unfold weightAt in Hmany. rewrite Hn, Ho in Hmany. cbn zeta in *.
    rewrite Hmany; cbn [change trend].
    split; [reflexivity|]. split; [|split].
    + intros Hs. now rewrite Qltb_true.
    + intros Hb Hp. rewrite Qltb_false by exact Hb.
      now rewrite Qpositive_true.
    + intros Hb Hn'. rewrite Qltb_false by exact Hb.
      rewrite Qpositive_false; [reflexivity | lra].
  - destruct (Nat.lt_ge_cases (length recent) 2) as [Hlt|Hge].
    + rewrite (Hfew Hlt). cbn. lra.
    + rewrite (Hmany Hge). cbn [change]. apply Qabs_nonneg.
Qed.

(** Over the last 7 days the sample weigh-ins go from 70.4 to 71.5: up
    by 1.1; of the last day alone there is one entry: stable. *)
Lemma getWeightTrend_spec_witness :
  newestFirst sampleWeights /\
  getWeightTrend sampleNow sampleWeights 0 = mkWeightTrend Stable 0 /\
  trend (getWeightTrend sampleNow sampleWeights 7) = Up /\
  (change (getWeightTrend sampleNow sampleWeights 7) == 1.1)%Q.
Proof.
  assert (Hs : newestFirst sampleWeights).
  { unfold newestFirst, sampleWeights.
    repeat (apply SSorted_cons || apply SSorted_nil
            || apply List.Forall_cons || apply List.Forall_nil);
      vm_compute; discriminate. }
  split; [exact Hs|]. split.
  - apply (getWeightTrend_spec sampleNow sampleWeights 0 Hs). vm_compute. lia.
  - split; vm_compute; reflexivity.
Defined.

(** ** Habit-entry writes *)

Lemma entryMatches_key habitId dateStr e :
  entryMatches habitId dateStr e = true <-> entryKey e = (habitId, dateStr).
Proof.
  unfold entryMatches, entryKey. rewrite andb_true_iff, String.eqb_eq, Z.eqb_eq.
  split; [intros [-> ->]; reflexivity | intros [= -> ->]; auto].
Qed.

Lemma rowMatches_key habitId dateStr r :
  rowMatches habitId dateStr r = true <-> rowKey r = (habitId, dateStr).
Proof.
  unfold rowMatches, rowKey. rewrite andb_true_iff, String.eqb_eq, Z.eqb_eq.
  split; [intros [-> ->]; reflexivity | intros [= -> ->]; auto].
Qed.

Lemma find_rowMatches_Some habitId dateStr rows r :
  List.find (rowMatches habitId dateStr) rows = Some r ->
  List.In (habitId, dateStr) (List.map rowKey rows).
Proof.
  intros Hf. apply List.find_some in Hf as [Hin Hm].
  apply rowMatches_key in Hm. rewrite <- Hm. now apply List.in_map.
Qed.

Lemma find_rowMatches_None habitId dateStr rows :
  List.find (rowMatches habitId dateStr) rows = None ->
  ~ List.In (habitId, dateStr) (List.map rowKey rows).
Proof.
  intros Hf Hin. apply List.in_map_iff in Hin as (r & Hk & Hr).
  pose proof (List.find_none _ _ Hf r Hr) as Hm.
  apply rowMatches_key in Hk. congruence.
Qed.

(** Rewriting the entries that match, and only them, in a way that keeps
    their key keeps the keys of the list. *)
Lemma map_keys_unchanged {A K} (key : A -> K) (p : A -> bool) (f : A -> A)
    (l : list A) :
  (forall x, key (f x) = key x) ->
  List.map key (mapWhere p f l) = List.map key l.
Proof.
  intros Hk. unfold mapWhere. rewrite List.map_map. apply List.map_ext.
  intros x. destruct (p x); [apply Hk | reflexivity].
Qed.

Lemma map_unmatched_id {A} (p : A -> bool) (f : A -> A) (l : list A) :
  (forall x, List.In x l -> p x = false) ->
  mapWhere p f l = l.
Proof.
  intros Hp. unfold mapWhere. rewrite <- (List.map_id l) at 2. apply List.map_ext_in.
  intros x Hx. now rewrite (Hp x Hx).
Qed.

Lemma Forall_map_rewrite {A} (P : A -> Prop) (p : A -> bool) (f : A -> A)
    (l : list A) :
  Forall P l ->
  (forall x, p x = true -> P (f x)) ->
  Forall P (mapWhere p f l).
Proof.
  intros Hall Hf. unfold mapWhere. induction Hall as [|x l Hx _ IH]; cbn [List.map]; constructor.
  - destruct (p x) eqn:E; [now apply Hf | exact Hx].
  - exact IH.
Qed.

Lemma findHabit_target hs habitId h :
  Forall (fun h => 1 <= h_targetCount h) hs ->
  findHabit hs habitId = Some h -> 1 <= h_targetCount h.
Proof.
  intros Hall Hf. apply List.find_some in Hf as [Hin _].
  rewrite List.Forall_forall in Hall. now apply Hall.
Qed.

Lemma markHabitIncomplete_invariant now s habitId date :
  targetsPositive s -> mirrored s -> entriesInvariant s ->
  entriesInvariant (markHabitIncomplete now s habitId date)
  /\ mirrored (markHabitIncomplete now s habitId date).
Proof.
  intros Htargets Hmirror [Hec Hrc Heu Hru].
  unfold markHabitIncomplete.
  set (dateStr := formatDay (startOfDay date)).
  split; [constructor|]; cbn [habits habitEntries habit_entries].
  - apply Forall_map_rewrite; [exact Hec|].
    intros e _ h Hh. cbn [setEntry e_habitId e_completed e_count] in *.
    pose proof (findHabit_target _ _ _ Htargets Hh). symmetry. apply Z.leb_gt. lia.
  - apply Forall_map_rewrite; [exact Hrc|].
    intros r _ h Hh. cbn [setRow r_habit_id r_completed r_count] in *.
    pose proof (findHabit_target _ _ _ Htargets Hh).
    replace (h_targetCount h <=? 0) with false
      by (symmetry; apply Z.leb_gt; lia).
    reflexivity.
  - rewrite -> map_keys_unchanged; [exact Heu | reflexivity].
  - rewrite -> map_keys_unchanged; [exact Hru | reflexivity].
  - intros k. cbn [habitEntries habit_entries].
    rewrite !map_keys_unchanged by reflexivity. apply Hmirror.
Qed.

Lemma markHabitComplete_invariant now id s habitId date count s' :
  mirrored s -> entriesInvariant s ->
  markHabitComplete now id s habitId date count = inr s' ->
  entriesInvariant s' /\ mirrored s' /\ habits s' = habits s.
Proof.
  intros Hmirror [Hec Hrc Heu Hru]. unfold markHabitComplete.
  set (dateStr := formatDay (startOfDay date)).
  destruct (findHabit (habits s) habitId) as [habit|] eqn:Hhabit; [|discriminate].
  destruct (List.find (rowMatches habitId dateStr) (habit_entries s))
    as [existing|] eqn:Hex; intros [= <-];
    (split; [constructor|split]); cbn [habits habitEntries habit_entries];
    try reflexivity.
  - apply Forall_map_rewrite; [exact Hec|].
    intros e He h Hh. cbn [setEntry e_habitId e_completed e_count] in *.
    apply entryMatches_key in He. injection He as Hid _.
    rewrite Hid in Hh. congruence.
  - apply Forall_map_rewrite; [exact Hrc|].
    intros r Hr h Hh. cbn [setRow r_habit_id r_completed r_count] in *.
    apply rowMatches_key in Hr. injection Hr as Hid _.
    rewrite Hid in Hh. congruence.
  - rewrite -> map_keys_unchanged; [exact Heu | reflexivity].
  - rewrite -> map_keys_unchanged; [exact Hru | reflexivity].
  - intros k. cbn [habitEntries habit_entries].
    rewrite !map_keys_unchanged by reflexivity. apply Hmirror.
  - constructor; [|exact Hec].
    intros h Hh. cbn [setEntry e_habitId e_completed e_count] in *. congruence.
  - apply List.Forall_app. split; [exact Hrc|]. constructor; [|constructor].
    intros h Hh. cbn [setRow r_habit_id r_completed r_count] in *. congruence.
  - cbn [List.map]. constructor; [|exact Heu].
    unfold entryKey at 1; cbn [e_habitId e_date]. fold dateStr.
    rewrite (Hmirror (habitId, dateStr)). now apply find_rowMatches_None.
  - rewrite List.map_app. apply List.NoDup_app; [exact Hru | |].
    + cbn. constructor; [intros []|constructor].
    + intros k Hk [<-|[]]. cbn [rowKey r_habit_id r_date] in Hk.
      now apply find_rowMatches_None in Hex.
  - intros k. cbn [habitEntries habit_entries].
    rewrite List.map_app, List.in_app_iff. cbn [List.map List.In].
    unfold entryKey at 1, rowKey at 2;
      cbn [e_habitId e_date r_habit_id r_date]. fold dateStr.
    rewrite (Hmirror k). tauto.
Qed.

Lemma markHabitComplete_upsert now id s habitId date count s' :
  mirrored s ->
  markHabitComplete now id s habitId date count = inr s' ->
  let key := (habitId, formatDay (startOfDay date)) in
  (List.In key (List.map entryKey (habitEntries s)) ->
   List.map entryKey (habitEntries s') = List.map entryKey (habitEntries s) /\
   List.map rowKey (habit_entries s') = List.map rowKey (habit_entries s)) /\
  (~ List.In key (List.map entryKey (habitEntries s)) ->
   exists e r,
     habitEntries s' = e :: habitEntries s /\ entryKey e = key /\
     habit_entries s' = habit_entries s ++ [r] /\ rowKey r = key).
Proof.
  intros Hmirror. unfold markHabitComplete.
  set (dateStr := formatDay (startOfDay date)).
  destruct (findHabit (habits s) habitId) as [habit|]; [|discriminate].
  destruct (List.find (rowMatches habitId dateStr) (habit_entries s))
    as [existing|] eqn:Hex; intros [= <-]; cbn zeta;
    cbn [habitEntries habit_entries]; split.
  - intros _. now rewrite !map_keys_unchanged by reflexivity.
  - intros Hno. exfalso. apply Hno. apply Hmirror.
    now apply find_rowMatches_Some in Hex.
  - intros Hin. exfalso. apply Hmirror in Hin.
    now apply find_rowMatches_None in Hex.
  - intros _. eexists _, _. repeat split.
Qed.

Lemma markHabitComplete_returns now id s habitId date count :
  findHabit (habits s) habitId <> None <->
  exists s', markHabitComplete now id s habitId date count = inr s'.
Proof.
  unfold markHabitComplete.
  destruct (findHabit (habits s) habitId) as [habit|].
  - split; [intros _|congruence].
    destruct (List.find (rowMatches _ _) _); eexists; reflexivity.
  - split; [congruence | intros [s' Hs']; discriminate].
Qed.

(** C6.  On a state whose table and React state store the same
    (habit, day) pairs and whose habits have a target of at least 1,
    [markHabitComplete] and [markHabitIncomplete] preserve the two
    invariants of the stored entries,
    [completed == (count >= habit.targetCount)] and at most one entry per
    (habit, day) pair.  [markHabitComplete] succeeds exactly when the
    habit exists; it rewrites the entry of the day in place when there is
    one and adds one entry only when there is none. *)
Theorem habit_entry_writes_preserve_invariants (s : HabitsState) :
  targetsPositive s -> mirrored s -> entriesInvariant s ->
  (forall now id habitId date count,
      (findHabit (habits s) habitId <> None <->
       exists s', markHabitComplete now id s habitId date count = inr s') /\
      forall s',
        markHabitComplete now id s habitId date count = inr s' ->
        entriesInvariant s' /\ mirrored s' /\ targetsPositive s' /\
        let key := (habitId, formatDay (startOfDay date)) in
        (List.In key (List.map entryKey (habitEntries s)) ->
         List.map entryKey (habitEntries s') = List.map entryKey (habitEntries s) /\
         List.map rowKey (habit_entries s') = List.map rowKey (habit_entries s)) /\
        (~ List.In key (List.map entryKey (habitEntries s)) ->
         exists e r,
           habitEntries s' = e :: habitEntries s /\ entryKey e = key /\
           habit_entries s' = habit_entries s ++ [r] /\ rowKey r = key)) /\
  (forall now habitId date,
      let s' := markHabitIncomplete now s habitId date in
      entriesInvariant s' /\ mirrored s' /\ targetsPositive s').
Proof.
  intros Htargets Hmirror Hinv. split.
  - intros now id habitId date count. split.
    + apply markHabitComplete_returns.
    + intros s' Hs'.
      destruct (markHabitComplete_invariant _ _ _ _ _ _ _ Hmirror Hinv Hs')
        as (Hinv' & Hmirror' & Hhabits).
      split; [exact Hinv'|]. split; [exact Hmirror'|]. split.
      * unfold targetsPositive. now rewrite Hhabits.
      * exact (markHabitComplete_upsert _ _ _ _ _ _ _ Hmirror Hs').
  - intros now habitId date s'.
    destruct (markHabitIncomplete_invariant now s habitId date
                Htargets Hmirror Hinv) as [Hinv' Hmirror'].
    split; [exact Hinv'|]. split; [exact Hmirror'|exact Htargets].
Qed.

Lemma sampleHabits_invariant :
  targetsPositive sampleHabits /\ mirrored sampleHabits
  /\ entriesInvariant sampleHabits.
Proof.
  split; [|split].
  - repeat constructor. cbn. lia.
  - intros k. reflexivity.
  - constructor; cbn; constructor.
Defined.

(** Logging two glasses of three, then the third, then undoing: one
    entry throughout, completed only after the third. *)
Lemma habit_entry_writes_preserve_invariants_witness :
  entriesInvariant sampleAfterTwo /\
  entriesInvariant sampleAfterThree /\
  entriesInvariant (markHabitIncomplete (sampleNow + 3) sampleAfterThree "h1" sampleNow) /\
  List.map e_completed (habitEntries sampleAfterTwo) = [false] /\
  List.map e_completed (habitEntries sampleAfterThree) = [true].
Proof.
  destruct sampleHabits_invariant as (Ht0 & Hm0 & Hi0).
  destruct (proj2 (proj1 (habit_entry_writes_preserve_invariants
                            sampleHabits Ht0 Hm0 Hi0)
                         (sampleNow + 1) "e1"%string "h1"%string sampleNow 2)
                  sampleAfterTwo eq_refl)
    as (Hi1 & Hm1 & Ht1 & _).
  destruct (proj2 (proj1 (habit_entry_writes_preserve_invariants
                            sampleAfterTwo Ht1 Hm1 Hi1)
                         (sampleNow + 2) "e2"%string "h1"%string sampleNow 3)
                  sampleAfterThree eq_refl)
    as (Hi2 & Hm2 & Ht2 & _).
  destruct (proj2 (habit_entry_writes_preserve_invariants
                     sampleAfterThree Ht2 Hm2 Hi2)
                  (sampleNow + 3) "h1"%string sampleNow)
    as (Hi3 & _).
  split; [exact Hi1|]. split; [exact Hi2|]. split; [exact Hi3|].
  split; reflexivity.
Defined.

(** C10.  [markHabitIncomplete] never adds an entry and never touches
    the habits; an entry, or a row, stored under another (habit, day)
    pair is left as it is, at its position; and when no entry, or no
    row, is stored under the given pair, the entries, or the table,
    are unchanged. *)
Theorem markHabitIncomplete_frame now (s : HabitsState) (habitId : string)
    (date : Date) :
  let s' := markHabitIncomplete now s habitId date in
  let key := (habitId, formatDay (startOfDay date)) in
  habits s' = habits s /\
  length (habitEntries s') = length (habitEntries s) /\
  length (habit_entries s') = length (habit_entries s) /\
  (forall i e, nth_error (habitEntries s) i = Some e -> entryKey e <> key ->
               nth_error (habitEntries s') i = Some e) /\
  (forall i r, nth_error (habit_entries s) i = Some r -> rowKey r <> key ->
               nth_error (habit_entries s') i = Some r) /\
  (~ List.In key (List.map entryKey (habitEntries s)) ->
   habitEntries s' = habitEntries s) /\
  (~ List.In key (List.map rowKey (habit_entries s)) ->
   habit_entries s' = habit_entries s) /\
  (~ List.In key (List.map entryKey (habitEntries s)) ->
   ~ List.In key (List.map rowKey (habit_entries s)) ->
   s' = s).
Proof.
  cbn zeta. unfold markHabitIncomplete.
  set (dateStr := formatDay (startOfDay date)).
  cbn [habits habitEntries habit_entries].
  assert (He : ~ List.In (habitId, dateStr) (List.map entryKey (habitEntries s)) ->
               mapWhere (entryMatches habitId dateStr) (setEntry false 0 now)
                        (habitEntries s) = habitEntries s).
  { intros Hno. apply map_unmatched_id. intros e Hin.
    destruct (entryMatches habitId dateStr e) eqn:E; [|reflexivity].
    apply entryMatches_key in E. exfalso. apply Hno. rewrite <- E.
    now apply List.in_map. }
  assert (Hr : ~ List.In (habitId, dateStr) (List.map rowKey (habit_entries s)) ->
               mapWhere (rowMatches habitId dateStr) (setRow 0 0 now)
                        (habit_entries s) = habit_entries s).
  { intros Hno. apply map_unmatched_id. intros r Hin.
    destruct (rowMatches habitId dateStr r) eqn:E; [|reflexivity].
    apply rowMatches_key in E. exfalso. apply Hno. rewrite <- E.
    now apply List.in_map. }
  split; [reflexivity|].
  split; [apply List.length_map|]. split; [apply List.length_map|].
  split; [|split; [|split; [exact He|split; [exact Hr|]]]].
  - intros i e Hi Hk. unfold mapWhere. rewrite List.nth_error_map, Hi.
    cbn [option_map]. destruct (entryMatches habitId dateStr e) eqn:E;
      [|reflexivity].
    apply entryMatches_key in E. contradiction.
  - intros i r Hi Hk. unfold mapWhere. rewrite List.nth_error_map, Hi.
    cbn [option_map]. destruct (rowMatches habitId dateStr r) eqn:E;
      [|reflexivity].
    apply rowMatches_key in E. contradiction.
  - intros Hne Hnr. rewrite (He Hne), (Hr Hnr). now destruct s.
Qed.

(** Undoing on the day after the one logged, or for another habit,
    changes nothing. *)
Lemma markHabitIncomplete_frame_witness :
  markHabitIncomplete (sampleNow + 3) sampleAfterThree "h1"
                      (addDays sampleNow 1) = sampleAfterThree /\
  markHabitIncomplete (sampleNow + 3) sampleAfterThree "h2" sampleNow
  = sampleAfterThree.
Proof.
  split.
  - apply (markHabitIncomplete_frame (sampleNow + 3) sampleAfterThree
                                     "h1"%string (addDays sampleNow 1));
      vm_compute; intros [H|[]]; discriminate H.
  - apply (markHabitIncomplete_frame (sampleNow + 3) sampleAfterThree
                                     "h2"%string sampleNow);
      vm_compute; intros [H|[]]; discriminate H.
Defined.

(** ** Category spending *)

Lemma orZero_Some (v : Q) : (orZero (Some v) == v)%Q.
Proof.
  cbn. destruct (Qeq_bool v 0) eqn:E; [|reflexivity].
  apply Qeq_bool_iff in E. now rewrite E.
Qed.

Lemma sumOfAmountsWhere_none (p : Transaction -> bool) (l : list Transaction) :
  existsb p l = false -> sumOfAmountsWhere p l = 0%Q.
Proof.
  induction l as [|t l IH]; cbn [existsb sumOfAmountsWhere]; [reflexivity|].
  intros H. apply orb_false_iff in H as [-> H]. now apply IH.
Qed.

Lemma fold_addToCategory_lookup (l : list Transaction) (acc : gmap string Q)
    (c : string) :
  if existsb (fun t => String.eqb (t_category t) c) l
  then exists v,
      fold_left addToCategory l acc !! c = Some v /\
      (v == orZero (acc !! c)
            + sumOfAmountsWhere (fun t => String.eqb (t_category t) c) l)%Q
  else fold_left addToCategory l acc !! c = acc !! c.
Proof.
  revert acc. induction l as [|t l IH]; intros acc;
    cbn [existsb fold_left sumOfAmountsWhere]; [reflexivity|].
  specialize (IH (addToCategory acc t)).
  destruct (String.eqb (t_category t) c) eqn:E; cbn [orb].
  - apply String.eqb_eq in E. subst c.
    assert (Hacc : addToCategory acc t !! t_category t
                   = Some (orZero (acc !! t_category t) + t_amount t)%Q)
      by (unfold addToCategory; apply lookup_insert_eq).
    destruct (existsb _ l) eqn:Hex.
    + destruct IH as (v & Hv & Hsum). exists v. split; [exact Hv|].
      rewrite Hsum, Hacc, orZero_Some. lra.
    + eexists. split; [rewrite IH; exact Hacc|].
      rewrite (sumOfAmountsWhere_none _ _ Hex). lra.
  - apply String.eqb_neq in E.
    assert (Hacc : addToCategory acc t !! c = acc !! c)
      by (unfold addToCategory; now apply lookup_insert_ne).
    destruct (existsb _ l).
    + destruct IH as (v & Hv & Hsum). exists v. split; [exact Hv|].
      now rewrite Hsum, Hacc.
    + now rewrite IH.
Qed.

Lemma sumOfAmountsWhere_filter (p q : Transaction -> bool) (l : list Transaction) :
  sumOfAmountsWhere p (List.filter q l)
  = sumOfAmountsWhere (fun t => p t && q t) l.
Proof.
  induction l as [|t l IH]; cbn [List.filter sumOfAmountsWhere]; [reflexivity|].
  destruct (q t); cbn [sumOfAmountsWhere].
  - rewrite andb_true_r. now rewrite IH.
  - now rewrite andb_false_r.
Qed.

(** What [getCategorySpending] maps a category to: the sum of its
    expenses dated within the window the function filters with, when
    there is one, and nothing otherwise. *)
Lemma getCategorySpending_lookup now (transactions : list Transaction)
    (period : SpendingPeriod) (c : string) :
  let w := categorySpendingWindow now period in
  ((exists t, List.In t transactions /\ isExpenseOfIn c w t = true) ->
   exists v, getCategorySpending now transactions period !! c = Some v /\
             (v == sumOfAmountsWhere (isExpenseOfIn c w) transactions)%Q) /\
  ((forall t, List.In t transactions -> isExpenseOfIn c w t = false) ->
   getCategorySpending now transactions period !! c = None).
Proof.
  cbn zeta. unfold getCategorySpending.
  destruct (categorySpendingWindow now period) as [start end_] eqn:Hw.
  set (inW := fun t => TransactionType_eqb (t_type t) Expense
                       && (start <=? t_date t) && (t_date t <=? end_)).
  assert (Hsplit : forall t, isExpenseOfIn c (start, end_) t
                             = String.eqb (t_category t) c && inW t).
  { intros t. unfold isExpenseOfIn, inW. cbn [fst snd].
    rewrite TransactionType_eqb_Expense.
    destruct (isExpense t), (String.eqb (t_category t) c),
      (start <=? t_date t), (t_date t <=? end_); reflexivity. }
  pose proof (fold_addToCategory_lookup (List.filter inW transactions) ∅ c) as Hfold.
  split.
  - intros (t & Hin & Ht). rewrite Hsplit in Ht. apply andb_true_iff in Ht as [Hc Hi].
    replace (existsb _ (List.filter inW transactions)) with true in Hfold.
    2:{ symmetry. apply existsb_exists. exists t. split; [|exact Hc].
        apply List.filter_In. now split. }
    destruct Hfold as (v & Hv & Hsum). exists v. split; [exact Hv|].
    rewrite Hsum, lookup_empty, sumOfAmountsWhere_filter.
    rewrite (sumOfAmountsWhere_ext _ (isExpenseOfIn c (start, end_))); [cbn; lra|].
    intros t'. now rewrite Hsplit.
  - intros Hnone.
    replace (existsb _ (List.filter inW transactions)) with false in Hfold.
    2:{ symmetry. apply not_true_is_false. intros Hex.
        apply existsb_exists in Hex as (t & Hin & Hc).
        apply List.filter_In in Hin as [Hin Hi].
        specialize (Hnone t Hin). rewrite Hsplit, Hc, Hi in Hnone. discriminate. }
    now rewrite Hfold, lookup_empty.
Qed.

(** For the week [getCategorySpending] counts only what is dated at the
    very instant of the call. *)
Lemma getCategorySpending_week_only_now now (transactions : list Transaction)
    (c : string) :
  (forall t, List.In t transactions -> t_date t <> now) ->
  getCategorySpending now transactions Week !! c = None.
Proof.
  intros Hdates. apply (getCategorySpending_lookup now transactions Week c).
  intros t Hin. unfold isExpenseOfIn; cbn [categorySpendingWindow fst snd].
  specialize (Hdates t Hin).
  destruct (now <=? t_date t) eqn:E1; [|now rewrite !andb_false_r].
  destruct (t_date t <=? now) eqn:E2; [|now rewrite !andb_false_r].
  apply Z.leb_le in E1, E2. lia.
Qed.

(** C4.  On Wednesday 2024-01-17 with two food expenses made on the
    Monday and the Tuesday before, both within the current Sunday-start
    week: [getCategorySpending('week')] returns the empty mapping, not
    food mapped to 150, because it filters with [new Date()] as both ends
    of the window; for the month the same expenses are summed. *)
Theorem getCategorySpending_week_misses_the_week :
  Forall (fun t => isExpenseOfIn "food" (sundayWeekOf sampleNow) t = true)
         sampleTransactions /\
  (sumOfAmountsWhere (isExpenseOfIn "food" (sundayWeekOf sampleNow))
                     sampleTransactions == 150)%Q /\
  getCategorySpending sampleNow sampleTransactions Week = ∅ /\
  getCategorySpending sampleNow sampleTransactions Week !! "food"%string = None /\
  getCategorySpending sampleNow sampleTransactions Month !! "food"%string
  = Some 150%Q.
Proof.
  split; [|split; [|split; [|split]]].
  - repeat constructor.
  - vm_compute; reflexivity.
  - reflexivity.
  - reflexivity.
  - vm_compute; reflexivity.
Qed.

(** ** Dashboard progress *)

Lemma fold_sumQ (l : list Q) (a : Q) :
  (fold_left (fun sum progress => sum + progress) l a == a + sumQ l)%Q.
Proof.
  revert a. induction l as [|x l IH]; intros a; cbn [fold_left sumQ].
  - lra.
  - rewrite IH. lra.
Qed.

Lemma habitProgress_within_target (h : TodaysHabit) :
  0 < h_targetCount (th_habit h) -> th_count h <= h_targetCount (th_habit h) ->
  exists q, habitProgress h = Some q /\ (q == clampedProgress h)%Q.
Proof.
  intros Hpos Hle. unfold habitProgress, clampedProgress.
  set (c := th_count h) in *. set (t := h_targetCount (th_habit h)) in *.
  assert (Ht : (0 < inject_Z t)%Q) by (unfold Qlt; cbn; lia).
  assert (Hc : (inject_Z c <= inject_Z t)%Q) by (unfold Qle; cbn; lia).
  rewrite divide_nonzero by lra. cbn.
  eexists. split; [reflexivity|].
  assert (Hr : (inject_Z c / inject_Z t <= 1)%Q)
    by (apply Qle_shift_div_r; [exact Ht | lra]).
  destruct (Q.min_spec (inject_Z c / inject_Z t) 1) as [[_ ->]|[H ->]];
    [reflexivity|].
  assert (Heq : (inject_Z c / inject_Z t == 1)%Q) by lra.
  now rewrite Heq.
Qed.

Lemma mapM_habitProgress_within_target (l : list TodaysHabit) :
  Forall (fun h => 0 < h_targetCount (th_habit h)
                   /\ th_count h <= h_targetCount (th_habit h)) l ->
  exists qs, mapM habitProgress l = Some qs /\
             (sumQ qs == sumQ (List.map clampedProgress l))%Q.
Proof.
  induction 1 as [|h l [Hpos Hle] _ (qs & Hqs & Hsum)].
  - exists []. split; reflexivity.
  - destruct (habitProgress_within_target h Hpos Hle) as (q & Hq & Hqc).
    exists (q :: qs). split.
    + cbn. rewrite Hq. cbn. rewrite Hqs. reflexivity.
    + cbn [List.map sumQ]. now rewrite Hqc, Hsum.
Qed.

(** While no count exceeds its target, the dashboard percentage is the
    equal-weight average of the specification; without habits it is 0. *)
Lemma completionPercentage_within_target (l : list TodaysHabit) :
  Forall (fun h => 0 < h_targetCount (th_habit h)
                   /\ th_count h <= h_targetCount (th_habit h)) l ->
  exists q, completionPercentage l = Some q /\
            (q == clampedCompletionPercentage l)%Q.
Proof.
  intros Hall. unfold completionPercentage.
  destruct (mapM_habitProgress_within_target l Hall) as (qs & -> & Hsum). cbn.
  destruct l as [|h l].
  - exists 0%Q. split; reflexivity.
  - cbn [length Nat.ltb Nat.leb].
    rewrite divide_nonzero.
    2:{ unfold Qeq; cbn. lia. }
    eexists. split; [reflexivity|].
    unfold clampedCompletionPercentage. rewrite fold_sumQ, Hsum.
    cbn [length]. field. unfold Qeq; cbn. lia.
Qed.

Lemma completionPercentage_nil : completionPercentage [] = Some 0%Q.
Proof. reflexivity. Qed.

(** C5.  One habit with target 2 and 5 repetitions logged today: the
    dashboard computes 250 percent, where the equal-weight average of
    [min(count / targetCount, 1) * 100] is 100; [completionPercentage]
    does not cap a habit's share at 100. *)
Theorem completionPercentage_exceeds_100 :
  let todaysHabits := getTodaysHabits sampleNow sampleOverTarget in
  List.map th_count todaysHabits = [5] /\
  List.map (fun h => h_targetCount (th_habit h)) todaysHabits = [2] /\
  (clampedCompletionPercentage todaysHabits == 100)%Q /\
  exists percentage,
    completionPercentage todaysHabits = Some percentage /\
    (percentage == 250)%Q /\
    ~ (percentage <= 100)%Q.
Proof.
  cbn zeta. split; [|split; [|split]].
  - reflexivity.
  - reflexivity.
  - vm_compute; reflexivity.
  - eexists. split; [vm_compute; reflexivity|]. split.
    + vm_compute; reflexivity.
    + vm_compute. intros H. now apply H.
Qed.

(** ** Unit conversions, BMR and BMI *)





Lemma Qltb_iff (x y : Q) : Qltb x y = true <-> (x < y)%Q.
Proof.
  split; [|apply Qltb_true].
  intros H. destruct (Qlt_le_dec x y) as [Hlt|Hle]; [exact Hlt|].
  rewrite (Qltb_false _ _ Hle) in H. discriminate.
Qed.





(** ** Completion rate and streak bounds *)

Lemma inject_Z_ratio_bounds (a b : Z) :
  0 < b -> 0 <= a ->
  (0 <= inject_Z a / inject_Z b * 100)%Q /\
  (a <= b -> (inject_Z a / inject_Z b * 100 <= 100)%Q).
Proof.
  intros Hb Ha.
  assert (HbQ : (0 < inject_Z b)%Q) by (unfold Qlt; cbn; lia).
  assert (HaQ : (0 <= inject_Z a)%Q) by (unfold Qle; cbn; lia).
  assert (Hq : (0 <= inject_Z a / inject_Z b)%Q)
    by (apply Qle_shift_div_l; [exact HbQ | lra]).
  split; [lra|].
  intros Hab.
  assert (HabQ : (inject_Z a <= inject_Z b)%Q) by (unfold Qle; cbn; lia).
  assert (Hr : (inject_Z a / inject_Z b <= 1)%Q)
    by (apply Qle_shift_div_r; [exact HbQ | lra]).
  lra.
Qed.

Lemma filter_all {A} (p : A -> bool) (l : list A) :
  Forall (fun x => p x = true) l -> List.filter p l = l.
Proof.
  induction 1 as [|x l Hx _ IH]; [reflexivity|].
  cbn [List.filter]. now rewrite Hx, IH.
Qed.

Lemma filter_none {A} (p : A -> bool) (l : list A) :
  Forall (fun x => p x = false) l -> List.filter p l = [].
Proof.
  induction 1 as [|x l Hx _ IH]; [reflexivity|].
  cbn [List.filter]. now rewrite Hx.
Qed.

(** [calculateCompletionRate] always has a value.  It is 0 when
    [totalDays] is 0 or no entry is completed; for a positive
    [totalDays] it is never negative, it is at most 100 when there are
    no more entries than days, and it is exactly 100 when there are
    [totalDays] entries, all completed. *)
Theorem calculateCompletionRate_bounds (entries : list HabitEntry) (totalDays : Z) :
  exists rate,
    calculateCompletionRate entries totalDays = Some rate /\
    (totalDays = 0 -> rate = 0%Q) /\
    (Forall (fun e => e_completed e = false) entries -> (rate == 0)%Q) /\
    (0 < totalDays ->
     (0 <= rate)%Q /\
     (Z.of_nat (length entries) <= totalDays -> (rate <= 100)%Q) /\
     (Z.of_nat (length entries) = totalDays ->
      Forall (fun e => e_completed e = true) entries -> (rate == 100)%Q)).
Proof.
  unfold calculateCompletionRate.
  destruct (totalDays =? 0) eqn:E.
  - apply Z.eqb_eq in E. exists 0%Q.
    split; [reflexivity|]. split; [reflexivity|]. split; [reflexivity|]. lia.
  - apply Z.eqb_neq in E.
    set (completedDays := Z.of_nat (length (List.filter e_completed entries))).
    rewrite divide_nonzero by (unfold Qeq; cbn; lia). cbn.
    eexists. split; [reflexivity|]. split; [lia|]. split.
    + intros Hnone.
      assert (Hz : completedDays = 0)
        by (unfold completedDays; now rewrite filter_none).
      rewrite Hz. unfold Qdiv. cbn. ring.
    + intros Hpos.
      assert (Hc0 : 0 <= completedDays) by (unfold completedDays; lia).
      pose proof (filter_length_le e_completed entries) as Hlen.
      destruct (inject_Z_ratio_bounds completedDays totalDays Hpos Hc0)
        as [Hlow Hhigh].
      split; [exact Hlow|]. split.
      * intros Hle. apply Hhigh. unfold completedDays. lia.
      * intros Hlenq Hall.
        assert (Hc : completedDays = totalDays)
          by (unfold completedDays; now rewrite filter_all).
        rewrite Hc. field. unfold Qeq; cbn; lia.
Qed.

Lemma calculateCompletionRate_bounds_witness :
  exists rate,
    calculateCompletionRate
      [completedEntry "1" "h" 0; completedEntry "2" "h" msPerDay] 2 = Some rate /\
    (rate == 100)%Q.
Proof.
  destruct (calculateCompletionRate_bounds
              [completedEntry "1" "h" 0; completedEntry "2" "h" msPerDay] 2)
    as (rate & Hr & _ & _ & Hpos).
  exists rate. split; [exact Hr|].
  apply (Hpos ltac:(lia)); [reflexivity | repeat constructor].
Defined.

Lemma insertByDateDesc_completed (x : HabitEntry) (l : list HabitEntry) :
  length (List.filter e_completed (insertByDateDesc x l))
  = length (List.filter e_completed (x :: l)).
Proof.
  induction l as [|y l IH]; [reflexivity|].
  cbn [insertByDateDesc]. destruct (e_date y <=? e_date x); [reflexivity|].
  cbn [List.filter] in *.
  destruct (e_completed y), (e_completed x); cbn [length] in *; lia.
Qed.

Lemma sortByDateDesc_completed (l : list HabitEntry) :
  length (List.filter e_completed (sortByDateDesc l))
  = length (List.filter e_completed l).
Proof.
  induction l as [|x l IH]; [reflexivity|].
  cbn [sortByDateDesc fold_right]. fold (sortByDateDesc l).
  rewrite insertByDateDesc_completed. cbn [List.filter].
  destruct (e_completed x); cbn [length]; lia.
Qed.

Lemma streakIteration_bounds now f prev e s (k : Z) :
  0 <= currentStreak s <= longestStreak s ->
  0 <= tempStreak s <= longestStreak s ->
  longestStreak s <= k ->
  let s' := streakIteration now f prev e s in
  let k' := if e_completed e then k + 1 else k in
  0 <= currentStreak s' <= longestStreak s' /\
  0 <= tempStreak s' <= longestStreak s' /\
  longestStreak s' <= k'.
Proof.
  intros Hc Ht Hk. cbn zeta. unfold streakIteration.
  destruct (e_completed e); cbn [negb].
  - destruct prev as [p|]; cbn.
    + destruct (frequency_is_daily f && _); cbn; lia.
    + destruct (frequency_is_daily f && _); cbn; lia.
  - destruct prev; cbn; lia.
Qed.

Lemma streakLoop_bounds now f (l : list HabitEntry) : forall prev s (k : Z),
  0 <= currentStreak s <= longestStreak s ->
  0 <= tempStreak s <= longestStreak s ->
  longestStreak s <= k ->
  let s' := streakLoop now f prev l s in
  0 <= currentStreak s' <= longestStreak s' /\
  longestStreak s' <= k + Z.of_nat (length (List.filter e_completed l)).
Proof.
  induction l as [|e l IH]; intros prev s k Hc Ht Hk; cbn zeta.
  - cbn. lia.
  - cbn [streakLoop List.filter].
    destruct (streakIteration_bounds now f prev e s k Hc Ht Hk) as (Hc' & Ht' & Hk').
    specialize (IH (Some e) _ _ Hc' Ht' Hk'). cbn zeta in IH.
    destruct (e_completed e); cbn [length]; lia.
Qed.

(** The streaks [calculateStreak] reports are ordered and bounded: the
    current streak is never longer than the longest one, and the longest
    one never exceeds the number of completed entries; without a
    completed entry both are 0. *)
Theorem calculateStreak_bounds now (entries : list HabitEntry) :
  let r := calculateStreak now entries Daily in
  0 <= current r <= longest r /\
  longest r <= Z.of_nat (length (List.filter e_completed entries)).
Proof.
  cbn zeta. unfold calculateStreak.
  destruct entries as [|e l]; [cbn; lia|].
  cbn [current longest].
  pose proof (streakLoop_bounds now Daily (sortByDateDesc (e :: l)) None
                (mkStreakVars 0 0 0) 0) as H.
  cbn zeta in H. rewrite sortByDateDesc_completed in H.
  apply H; cbn; lia.
Qed.

(** ** Streaks of consecutive days, and the order of the entries *)

Lemma consecutiveDays_tail (a : HabitEntry) (l : list HabitEntry) :
  consecutiveDays (a :: l) -> consecutiveDays l.
Proof. destruct l as [|b l]; cbn; tauto. Qed.

Lemma consecutiveDays_sorted (l : list HabitEntry) :
  consecutiveDays l -> sortByDateDesc l = l.
Proof.
  induction l as [|a l IH]; [reflexivity|].
  intros Hc. cbn [sortByDateDesc fold_right]. fold (sortByDateDesc l).
  rewrite IH by (now apply consecutiveDays_tail in Hc).
  destruct l as [|b l]; [reflexivity|].
  destruct Hc as (Hle & _ & _). cbn [insertByDateDesc].
  apply Z.leb_le in Hle. now rewrite Hle.
Qed.

Lemma streakLoop_run now (l : list HabitEntry) : forall p s,
  consecutiveDays (p :: l) ->
  Forall (fun x => e_completed x = true) l ->
  tempStreak s <= longestStreak s ->
  streakLoop now Daily (Some p) l s
  = mkStreakVars (currentStreak s)
                 (Z.max (longestStreak s) (tempStreak s + Z.of_nat (length l)))
                 (tempStreak s + Z.of_nat (length l)).
Proof.
  induction l as [|e l IH]; intros p s Hc Hall Hs.
  - destruct s as [c lo t]. cbn in *. f_equal; lia.
  - inversion Hall as [|? ? He Hl]; subst.
    destruct Hc as (_ & Hdiff & Hc).
    cbn [streakLoop]. rewrite IH; [|exact Hc|exact Hl|].
    + unfold streakIteration. rewrite He, Hdiff. cbn.
      f_equal; lia.
    + unfold streakIteration. rewrite He, Hdiff. cbn. lia.
Qed.

(** A run of completed entries on consecutive days, newest first, of any
    length: [calculateStreak] reports the length of the run as the
    longest streak, and as the current streak 1 when the newest day is
    at most one day before [now], else 0. *)
Theorem calculateStreak_consecutive_run now (e : HabitEntry) (l : list HabitEntry) :
  Forall (fun x => e_completed x = true) (e :: l) ->
  consecutiveDays (e :: l) ->
  calculateStreak now (e :: l) Daily
  = mkStreak (if differenceInDays now (e_date e) <=? 1 then 1 else 0)
             (Z.of_nat (length (e :: l))).
Proof.
  intros Hall Hc. unfold calculateStreak.
  rewrite (consecutiveDays_sorted _ Hc).
  inversion Hall as [|? ? He Hl]; subst.
  cbn [streakLoop]. rewrite streakLoop_run; [|exact Hc|exact Hl|].
  - unfold streakIteration. rewrite He. cbn [negb frequency_is_daily andb].
    destruct (differenceInDays now (e_date e) <=? 1); cbn; f_equal; lia.
  - unfold streakIteration. rewrite He. cbn [negb frequency_is_daily andb].
    destruct (differenceInDays now (e_date e) <=? 1); cbn; lia.
Qed.

(** Four days in a row ending the day before [sampleNow]. *)
Lemma calculateStreak_consecutive_run_witness :
  calculateStreak sampleNow
    [completedEntry "4" "h1" (19738 * msPerDay);
     completedEntry "3" "h1" (19737 * msPerDay);
     completedEntry "2" "h1" (19736 * msPerDay);
     completedEntry "1" "h1" (19735 * msPerDay)] Daily
  = mkStreak 1 4.
Proof.
  apply (calculateStreak_consecutive_run sampleNow
           (completedEntry "4" "h1" (19738 * msPerDay))
           [completedEntry "3" "h1" (19737 * msPerDay);
            completedEntry "2" "h1" (19736 * msPerDay);
            completedEntry "1" "h1" (19735 * msPerDay)]).
  - repeat constructor.
  - cbn. repeat split; (reflexivity || discriminate).
Defined.

Lemma insertByDateDesc_In (x z : HabitEntry) (l : list HabitEntry) :
  List.In z (insertByDateDesc x l) <-> z = x \/ List.In z l.
Proof.
  induction l as [|y l IH]; cbn [insertByDateDesc].
  - cbn. intuition congruence.
  - destruct (e_date y <=? e_date x); cbn [List.In] in *.
    + intuition congruence.
    + rewrite IH. intuition congruence.
Qed.

Lemma insertByDateDesc_Permutation (x : HabitEntry) (l : list HabitEntry) :
  Permutation (insertByDateDesc x l) (x :: l).
Proof.
  induction l as [|y l IH]; cbn [insertByDateDesc]; [reflexivity|].
  destruct (e_date y <=? e_date x); [reflexivity|].
  rewrite IH. apply perm_swap.
Qed.

Lemma sortByDateDesc_Permutation (l : list HabitEntry) :
  Permutation (sortByDateDesc l) l.
Proof.
  induction l as [|x l IH]; [reflexivity|].
  cbn [sortByDateDesc fold_right]. fold (sortByDateDesc l).
  rewrite insertByDateDesc_Permutation. now rewrite IH.
Qed.

Lemma insertByDateDesc_sorted (x : HabitEntry) (l : list HabitEntry) :
  sortedByDateDesc l -> sortedByDateDesc (insertByDateDesc x l).
Proof.
  unfold sortedByDateDesc.
  induction 1 as [|y l Hs IH Hy]; cbn [insertByDateDesc].
  - repeat constructor.
  - rewrite List.Forall_forall in Hy.
    destruct (e_date y <=? e_date x) eqn:E.
    + apply Z.leb_le in E. constructor; [now constructor; [|apply List.Forall_forall]|].
      constructor; [exact E|]. apply List.Forall_forall.
      intros z Hz. specialize (Hy z Hz). lia.
    + apply Z.leb_gt in E. constructor; [exact IH|].
      apply List.Forall_forall. intros z Hz.
      apply insertByDateDesc_In in Hz as [->|Hz]; [lia | now apply Hy].
Qed.

Lemma sortByDateDesc_sorted (l : list HabitEntry) :
  sortedByDateDesc (sortByDateDesc l).
Proof.
  induction l as [|x l IH]; [constructor|].
  cbn [sortByDateDesc fold_right]. now apply insertByDateDesc_sorted.
Qed.

Lemma sortedByDateDesc_unique (l1 : list HabitEntry) : forall l2,
  sortedByDateDesc l1 -> sortedByDateDesc l2 ->
  Permutation l1 l2 -> List.NoDup (List.map e_date l1) -> l1 = l2.
Proof.
  unfold sortedByDateDesc.
  induction l1 as [|a l1 IH]; intros l2 Hs1 Hs2 Hp Hnd.
  - now apply Permutation_nil in Hp.
  - destruct l2 as [|b l2].
    { symmetry in Hp. now apply Permutation_nil in Hp. }
    apply StronglySorted_inv in Hs1 as [Hs1 Ha].
    apply StronglySorted_inv in Hs2 as [Hs2 Hb].
    rewrite List.Forall_forall in Ha, Hb.
    cbn [List.map] in Hnd. apply List.NoDup_cons_iff in Hnd as [Hna Hnd].
    assert (Hab : a = b).
    { assert (Hina : List.In a (b :: l2))
        by (eapply Permutation_in; [exact Hp | now left]).
      assert (Hinb : List.In b (a :: l1))
        by (eapply Permutation_in; [symmetry; exact Hp | now left]).
      destruct Hina as [Heq|Hina]; [now symmetry|].
      destruct Hinb as [Heq|Hinb]; [exact Heq|].
      pose proof (Hb a Hina). pose proof (Ha b Hinb).
      exfalso. apply Hna. replace (e_date a) with (e_date b) by lia.
      now apply List.in_map. }
    subst b. f_equal. apply IH; try assumption.
    now apply Permutation_cons_inv in Hp.
Qed.

(** [calculateStreak] does not depend on the order in which the entries
    are passed, as long as no two of them have the same date. *)
Theorem calculateStreak_order_irrelevant now (l1 l2 : list HabitEntry)
    (f : Frequency) :
  Permutation l1 l2 ->
  List.NoDup (List.map e_date l1) ->
  calculateStreak now l1 f = calculateStreak now l2 f.
Proof.
  intros Hp Hnd.
  assert (Hsort : sortByDateDesc l1 = sortByDateDesc l2).
  { apply sortedByDateDesc_unique; try apply sortByDateDesc_sorted.
    - now rewrite !sortByDateDesc_Permutation.
    - eapply Permutation_NoDup; [|exact Hnd].
      apply Permutation_map. symmetry. apply sortByDateDesc_Permutation. }
  unfold calculateStreak. rewrite Hsort.
  destruct l1 as [|a l1], l2 as [|b l2]; try reflexivity.
  all: try (apply Permutation_nil in Hp; discriminate Hp).
  all: symmetry in Hp; apply Permutation_nil in Hp; discriminate Hp.
Qed.

Lemma calculateStreak_order_irrelevant_witness :
  calculateStreak sampleNow
    [completedEntry "2" "h1" (19737 * msPerDay);
     completedEntry "4" "h1" (19739 * msPerDay);
     completedEntry "3" "h1" (19738 * msPerDay)] Daily
  = calculateStreak sampleNow
    [completedEntry "4" "h1" (19739 * msPerDay);
     completedEntry "3" "h1" (19738 * msPerDay);
     completedEntry "2" "h1" (19737 * msPerDay)] Daily.
Proof.
  apply calculateStreak_order_irrelevant.
  - etransitivity; [apply perm_swap|]. apply perm_skip, perm_swap.
  - repeat (apply List.NoDup_cons; [vm_compute; intuition discriminate|]).
    apply List.NoDup_nil.
Defined.

(** ** Reading back habit entries *)

Lemma find_mapWhere_same {A} (p : A -> bool) (f : A -> A) (l : list A) :
  (forall x, p (f x) = p x) ->
  List.find p (mapWhere p f l) = option_map f (List.find p l).
Proof.
  intros Hp. unfold mapWhere. induction l as [|x l IH]; [reflexivity|].
  cbn [List.map List.find]. destruct (p x) eqn:E.
  - now rewrite Hp, E.
  - now rewrite E.
Qed.

Lemma find_mapWhere_other {A} (p q : A -> bool) (f : A -> A) (l : list A) :
  (forall x, q (f x) = q x) ->
  (forall x, p x = true -> q x = false) ->
  List.find q (mapWhere p f l) = List.find q l.
Proof.
  intros Hq Hpq. unfold mapWhere. induction l as [|x l IH]; [reflexivity|].
  cbn [List.map List.find]. destruct (p x) eqn:E.
  - rewrite Hq, (Hpq x E). exact IH.
  - destruct (q x); [reflexivity | exact IH].
Qed.

Lemma formatDay_startOfDay (d : Date) : formatDay (startOfDay d) = formatDay d.
Proof. apply dayNumber_startOfDay. Qed.

Lemma entryMatches_setEntry habitId dateStr completed count now e :
  entryMatches habitId dateStr (setEntry completed count now e)
  = entryMatches habitId dateStr e.
Proof. reflexivity. Qed.

Lemma entryMatches_exclusive habitId dateStr habitId' dateStr' e :
  (habitId, dateStr) <> (habitId', dateStr') ->
  entryMatches habitId dateStr e = true ->
  entryMatches habitId' dateStr' e = false.
Proof.
  intros Hne Hm. apply entryMatches_key in Hm.
  destruct (entryMatches habitId' dateStr' e) eqn:E; [|reflexivity].
  apply entryMatches_key in E. congruence.
Qed.

Lemma find_entryMatches_exists habitId dateStr (l : list HabitEntry) :
  List.In (habitId, dateStr) (List.map entryKey l) ->
  exists e, List.find (entryMatches habitId dateStr) l = Some e.
Proof.
  intros Hin. apply List.in_map_iff in Hin as (e & Hk & He).
  destruct (List.find (entryMatches habitId dateStr) l) as [e'|] eqn:E; [eauto|].
  pose proof (List.find_none _ _ E e He) as Hm.
  apply entryMatches_key in Hk. congruence.
Qed.

Lemma markHabitComplete_read_back now id (s s' : HabitsState)
    (habitId : string) (date : Date) (count : Z) :
  mirrored s ->
  markHabitComplete now id s habitId date count = inr s' ->
  (exists e habit,
      getHabitEntry s' habitId date = Some e /\
      findHabit (habits s) habitId = Some habit /\
      e_habitId e = habitId /\
      formatDay (e_date e) = formatDay date /\
      e_count e = count /\
      e_completed e = (h_targetCount habit <=? count)) /\
  (forall habitId' date',
      (habitId', formatDay date') <> (habitId, formatDay date) ->
      getHabitEntry s' habitId' date' = getHabitEntry s habitId' date').
Proof.
  intros Hmirror. unfold markHabitComplete, getHabitEntry.
  rewrite !formatDay_startOfDay.
  set (dateStr := formatDay date).
  destruct (findHabit (habits s) habitId) as [habit|] eqn:Hhabit; [|discriminate].
  destruct (List.find (rowMatches habitId dateStr) (habit_entries s))
    as [existing|] eqn:Hex; intros [= <-]; cbn [habitEntries]; split.
  - apply find_rowMatches_Some, Hmirror, find_entryMatches_exists in Hex
      as (e0 & He0).
    rewrite find_mapWhere_same by apply entryMatches_setEntry.
    rewrite He0. cbn [option_map].
    apply List.find_some in He0 as [_ Hm]. apply entryMatches_key in Hm.
    injection Hm as Hid Hday.
    eexists _, habit.
    repeat split; cbn [setEntry e_habitId e_date e_count e_completed];
      try reflexivity; assumption.
  - intros habitId' date' Hne. rewrite formatDay_startOfDay.
    apply find_mapWhere_other; [intros; apply entryMatches_setEntry|].
    intros x. apply entryMatches_exclusive. congruence.
  - cbn [List.find]. replace (entryMatches habitId dateStr _) with true.
    2:{ symmetry. apply entryMatches_key. unfold entryKey; cbn [e_habitId e_date].
        now rewrite formatDay_startOfDay. }
    eexists _, habit.
    repeat split; cbn [e_habitId e_date e_count e_completed];
      try reflexivity. apply formatDay_startOfDay.
  - intros habitId' date' Hne. rewrite formatDay_startOfDay. cbn [List.find].
    replace (entryMatches habitId' _ _) with false; [reflexivity|].
    symmetry. apply (entryMatches_exclusive habitId dateStr); [congruence|].
    apply entryMatches_key. unfold entryKey; cbn [e_habitId e_date].
    now rewrite formatDay_startOfDay.
Qed.

(** Reading back what was written: after a successful
    [markHabitComplete(habitId, date, count)] on a state that mirrors
    its table, [getHabitEntry(habitId, date)] returns an entry of that
    habit and day holding [count], completed exactly when [count]
    reaches the habit's target; what [getHabitEntry] returns for another
    habit or another day is not changed. *)
Theorem getHabitEntry_after_markHabitComplete now id (s s' : HabitsState)
    (habitId : string) (date : Date) (count : Z) :
  mirrored s ->
  markHabitComplete now id s habitId date count = inr s' ->
  (exists e habit,
      getHabitEntry s' habitId date = Some e /\
      findHabit (habits s) habitId = Some habit /\
      e_habitId e = habitId /\
      formatDay (e_date e) = formatDay date /\
      e_count e = count /\
      e_completed e = (h_targetCount habit <=? count)) /\
  (forall habitId' date',
      (habitId', formatDay date') <> (habitId, formatDay date) ->
      getHabitEntry s' habitId' date' = getHabitEntry s habitId' date').
Proof.
  intros Hmirror Hs'.
  destruct (markHabitComplete_read_back _ _ _ _ _ _ _ Hmirror Hs') as [Hsame Hother].
  split; [exact Hsame | exact Hother].
Qed.

Lemma getHabitEntry_after_markHabitComplete_witness :
  exists e, getHabitEntry sampleAfterTwo "h1" (sampleNow + 5) = Some e /\
            e_count e = 2 /\ e_completed e = false.
Proof.
  destruct (getHabitEntry_after_markHabitComplete (sampleNow + 1) "e1"
              sampleHabits sampleAfterTwo "h1" sampleNow 2
              (proj1 (proj2 sampleHabits_invariant)) eq_refl)
    as [(e & habit & He & Hh & _ & _ & Hc & Hd) _].
  exists e. split; [|split; [exact Hc|]].
  - unfold getHabitEntry in *.
    replace (formatDay (startOfDay (sampleNow + 5)))
      with (formatDay (startOfDay sampleNow)) by reflexivity.
    exact He.
  - rewrite Hd. injection Hh as <-. reflexivity.
Defined.

Lemma markHabitIncomplete_read_back now (s : HabitsState)
    (habitId : string) (date : Date) :
  let s' := markHabitIncomplete now s habitId date in
  getHabitEntry s' habitId date
  = option_map (setEntry false 0 now) (getHabitEntry s habitId date) /\
  entryCount (getHabitEntry s' habitId date) = 0 /\
  entryCompleted (getHabitEntry s' habitId date) = false /\
  (forall habitId' date',
      (habitId', formatDay date') <> (habitId, formatDay date) ->
      getHabitEntry s' habitId' date' = getHabitEntry s habitId' date').
Proof.
  cbn zeta. unfold markHabitIncomplete, getHabitEntry. cbn [habitEntries].
  rewrite !formatDay_startOfDay.
  assert (Hsame : List.find (entryMatches habitId (formatDay date))
                    (mapWhere (entryMatches habitId (formatDay date))
                              (setEntry false 0 now) (habitEntries s))
                  = option_map (setEntry false 0 now)
                      (List.find (entryMatches habitId (formatDay date))
                                 (habitEntries s)))
    by (apply find_mapWhere_same; intros; apply entryMatches_setEntry).
  split; [exact Hsame|]. rewrite Hsame.
  split; [|split].
  - now destruct (List.find _ (habitEntries s)).
  - now destruct (List.find _ (habitEntries s)).
  - intros habitId' date' Hne. rewrite formatDay_startOfDay.
    apply find_mapWhere_other; [intros; apply entryMatches_setEntry|].
    intros x. apply entryMatches_exclusive. congruence.
Qed.

(** After [markHabitIncomplete(habitId, date)], [getHabitEntry] returns
    for that habit and day the entry it returned before with its count
    set to 0 and [completed] to false, and nothing if it returned
    nothing; for another habit or day it returns what it did. *)
Theorem getHabitEntry_after_markHabitIncomplete now (s : HabitsState)
    (habitId : string) (date : Date) :
  let s' := markHabitIncomplete now s habitId date in
  getHabitEntry s' habitId date
  = option_map (setEntry false 0 now) (getHabitEntry s habitId date) /\
  entryCount (getHabitEntry s' habitId date) = 0 /\
  entryCompleted (getHabitEntry s' habitId date) = false /\
  (forall habitId' date',
      (habitId', formatDay date') <> (habitId, formatDay date) ->
      getHabitEntry s' habitId' date' = getHabitEntry s habitId' date').
Proof.
  destruct (markHabitIncomplete_read_back now s habitId date)
    as (Hsame & Hcount & Hcompleted & Hother).
  cbn zeta. split; [exact Hsame|]. split; [exact Hcount|].
  split; [exact Hcompleted | exact Hother].
Qed.

Lemma getHabitEntry_after_markHabitIncomplete_witness :
  getHabitEntry (markHabitIncomplete (sampleNow + 3) sampleAfterThree "h2" sampleNow)
                "h1" sampleNow
  = getHabitEntry sampleAfterThree "h1" sampleNow.
Proof.
  apply (getHabitEntry_after_markHabitIncomplete (sampleNow + 3) sampleAfterThree
           "h2" sampleNow).
  vm_compute. discriminate.
Defined.

(** ** Deleting a habit *)

Lemma find_filter_kept {A} (p q : A -> bool) (l : list A) :
  (forall x, p x = true -> q x = true) ->
  List.find p (List.filter q l) = List.find p l.
Proof.
  intros Hpq. induction l as [|x l IH]; [reflexivity|].
  cbn [List.filter List.find]. destruct (p x) eqn:E.
  - rewrite (Hpq x E). cbn [List.find]. now rewrite E.
  - destruct (q x); [cbn [List.find]; now rewrite E | exact IH].
Qed.

Lemma find_filter_dropped {A} (p q : A -> bool) (l : list A) :
  (forall x, p x = true -> q x = false) ->
  List.find p (List.filter q l) = None.
Proof.
  intros Hpq. induction l as [|x l IH]; [reflexivity|].
  cbn [List.filter]. destruct (q x) eqn:E; [|exact IH].
  cbn [List.find]. destruct (p x) eqn:E'; [|exact IH].
  rewrite (Hpq x E') in E. discriminate.
Qed.

Lemma NoDup_map_filter {A K} (key : A -> K) (q : A -> bool) (l : list A) :
  List.NoDup (List.map key l) -> List.NoDup (List.map key (List.filter q l)).
Proof.
  induction l as [|x l IH]; [trivial|].
  cbn [List.map List.filter]. intros Hnd.
  apply List.NoDup_cons_iff in Hnd as [Hx Hnd].
  destruct (q x); [|now apply IH].
  cbn [List.map]. constructor; [|now apply IH].
  intros Hin. apply Hx. apply List.in_map_iff in Hin as (y & Hy & Hin).
  apply List.filter_In in Hin as [Hin _]. rewrite <- Hy. now apply List.in_map.
Qed.

Lemma in_map_key_filter {A} (key : A -> string * Z) (l : list A) (id : string)
    (k : string * Z) :
  List.In k (List.map key
               (List.filter (fun x => negb (String.eqb (fst (key x)) id)) l))
  <-> List.In k (List.map key l) /\ fst k <> id.
Proof.
  rewrite !List.in_map_iff. split.
  - intros (x & <- & Hin). apply List.filter_In in Hin as [Hin Hq].
    apply negb_true_iff, String.eqb_neq in Hq. split; [eauto | exact Hq].
  - intros [(x & <- & Hin) Hne]. exists x. split; [reflexivity|].
    apply List.filter_In. split; [exact Hin|].
    now apply negb_true_iff, String.eqb_neq.
Qed.

Lemma findHabit_after_filter (hs : list Habit) (id habitId : string) :
  habitId <> id ->
  findHabit (List.filter (fun h => negb (String.eqb (h_id h) id)) hs) habitId
  = findHabit hs habitId.
Proof.
  intros Hne. unfold findHabit. apply find_filter_kept.
  intros h Hh. apply String.eqb_eq in Hh.
  apply negb_true_iff, String.eqb_neq. congruence.
Qed.

(** [deleteHabit(id)] leaves no habit and no entry of that id:
    [getHabitEntry] finds nothing for it on any day.  The other habits
    and what [getHabitEntry] returns for them are untouched, and the
    invariants of the stored entries and the agreement of state and table
    are kept. *)
Theorem deleteHabit_removes_only_that_habit (s : HabitsState) (id : string) :
  let s' := deleteHabit s id in
  findHabit (habits s') id = None /\
  (forall date, getHabitEntry s' id date = None) /\
  (forall e, List.In e (habitEntries s') <->
             List.In e (habitEntries s) /\ e_habitId e <> id) /\
  (forall habitId, habitId <> id ->
     findHabit (habits s') habitId = findHabit (habits s) habitId /\
     forall date, getHabitEntry s' habitId date = getHabitEntry s habitId date) /\
  (mirrored s -> mirrored s') /\
  (entriesInvariant s -> entriesInvariant s').
Proof.
  cbn zeta. unfold deleteHabit.
  split; [|split; [|split; [|split; [|split]]]]; cbn [habits habitEntries habit_entries].
  - unfold findHabit. apply find_filter_dropped.
    intros h Hh. now rewrite Hh.
  - intros date. unfold getHabitEntry; cbn [habitEntries].
    apply find_filter_dropped. intros e He.
    apply andb_true_iff in He as [He _]. now rewrite He.
  - intros e. rewrite List.filter_In, negb_true_iff, String.eqb_neq. tauto.
  - intros habitId Hne. split; [now apply findHabit_after_filter|].
    intros date. unfold getHabitEntry; cbn [habitEntries].
    apply find_filter_kept. intros e He.
    apply andb_true_iff in He as [He _]. apply String.eqb_eq in He.
    apply negb_true_iff, String.eqb_neq. congruence.
  - intros Hmirror k. cbn [habitEntries habit_entries].
    rewrite (in_map_key_filter entryKey (habitEntries s) id k).
    rewrite (in_map_key_filter rowKey (habit_entries s) id k).
    now rewrite (Hmirror k).
  - intros [Hec Hrc Heu Hru].
    constructor; cbn [habits habitEntries habit_entries].
    + apply List.Forall_forall. intros e He.
      apply List.filter_In in He as [He Hq].
      apply negb_true_iff, String.eqb_neq in Hq.
      rewrite List.Forall_forall in Hec.
      intros h Hh. rewrite findHabit_after_filter in Hh by exact Hq.
      now apply (Hec e He).
    + apply List.Forall_forall. intros r Hr.
      apply List.filter_In in Hr as [Hr Hq].
      apply negb_true_iff, String.eqb_neq in Hq.
      rewrite List.Forall_forall in Hrc.
      intros h Hh. rewrite findHabit_after_filter in Hh by exact Hq.
      now apply (Hrc r Hr).
    + now apply NoDup_map_filter.
    + now apply NoDup_map_filter.
Qed.

Lemma deleteHabit_removes_only_that_habit_witness :
  getHabitEntry (deleteHabit sampleAfterThree "h2") "h1" sampleNow
  = getHabitEntry sampleAfterThree "h1" sampleNow /\
  habitEntries (deleteHabit sampleAfterThree "h1") = [].
Proof.
  split; [|reflexivity].
  destruct (deleteHabit_removes_only_that_habit sampleAfterThree "h2")
    as (_ & _ & _ & Hother & _).
  exact (proj2 (Hother "h1"%string ltac:(discriminate)) sampleNow).
Defined.

(** ** Toggles and counters *)

Lemma markHabitIncomplete_mirrored now s habitId date :
  mirrored s -> mirrored (markHabitIncomplete now s habitId date).
Proof.
  intros Hmirror k. unfold markHabitIncomplete; cbn [habitEntries habit_entries].
  rewrite !map_keys_unchanged by reflexivity. apply Hmirror.
Qed.

Lemma markHabitComplete_mirrored now id s habitId date count s' :
  mirrored s ->
  markHabitComplete now id s habitId date count = inr s' ->
  mirrored s' /\ habits s' = habits s.
Proof.
  intros Hmirror. unfold markHabitComplete.
  destruct (findHabit (habits s) habitId) as [habit|]; [|discriminate].
  destruct (List.find _ (habit_entries s)); intros [= <-];
    (split; [|reflexivity]); intros k; cbn [habitEntries habit_entries].
  - rewrite !map_keys_unchanged by reflexivity. apply Hmirror.
  - rewrite List.map_app, List.in_app_iff. cbn [List.map List.In].
    unfold entryKey at 1, rowKey at 2; cbn [e_habitId e_date r_habit_id r_date].
    rewrite (Hmirror k). tauto.
Qed.

(** A write of [count] for a habit that exists, as the handlers issue
    it: the state it leaves and what is then read back. *)
Lemma write_count now id s (habit : Habit) date count :
  mirrored s ->
  findHabit (habits s) (h_id habit) = Some habit ->
  let s' := orElse (markHabitComplete now id s (h_id habit) date count) s in
  mirrored s' /\ habits s' = habits s /\
  entryCount (getHabitEntry s' (h_id habit) date) = count /\
  entryCompleted (getHabitEntry s' (h_id habit) date)
  = (h_targetCount habit <=? count).
Proof.
  intros Hmirror Hhabit. cbn zeta.
  destruct (proj1 (markHabitComplete_returns now id s (h_id habit) date count))
    as [s' Hs']; [congruence|].
  rewrite Hs'. cbn [orElse].
  destruct (markHabitComplete_mirrored _ _ _ _ _ _ _ Hmirror Hs') as [Hm' Hh'].
  destruct (markHabitComplete_read_back _ _ _ _ _ _ _ Hmirror Hs')
    as [(e & habit' & He & Hf & _ & _ & Hc & Hd) _].
  rewrite He. cbn [entryCount entryCompleted].
  split; [exact Hm'|]. split; [exact Hh'|]. split; [exact Hc|].
  congruence.
Qed.

Lemma handleHabitToggle_cases now id s habitId isCompleted currentCount targetCount :
  handleHabitToggle now id s habitId isCompleted currentCount targetCount
  = if isCompleted then markHabitIncomplete now s habitId (startOfDay now)
    else orElse (markHabitComplete now id s habitId (startOfDay now) targetCount) s.
Proof.
  unfold handleHabitToggle. destruct (targetCount =? 1) eqn:E; [|reflexivity].
  apply Z.eqb_eq in E. now subst.
Qed.

(** The dashboard toggle flips the day's completion of a habit that
    exists: a habit shown as not completed becomes completed, with its
    full target as count, and a completed one becomes not completed, with
    count 0; toggling twice gives back the completion it had. *)
Theorem onToggle_flips_completion now id id' (s : HabitsState) (habit : Habit) :
  mirrored s ->
  findHabit (habits s) (h_id habit) = Some habit ->
  let today := startOfDay now in
  let completedIn := fun st => entryCompleted (getHabitEntry st (h_id habit) today) in
  let countIn := fun st => entryCount (getHabitEntry st (h_id habit) today) in
  let s' := onToggle now id s habit in
  completedIn s' = negb (completedIn s) /\
  countIn s' = (if completedIn s then 0 else h_targetCount habit) /\
  completedIn (onToggle now id' s' habit) = completedIn s.
Proof.
  intros Hmirror Hhabit. cbn zeta.
  assert (Hstep : forall i st,
             mirrored st -> findHabit (habits st) (h_id habit) = Some habit ->
             let st' := onToggle now i st habit in
             mirrored st' /\ habits st' = habits st /\
             entryCompleted (getHabitEntry st' (h_id habit) (startOfDay now))
             = negb (entryCompleted (getHabitEntry st (h_id habit) (startOfDay now))) /\
             entryCount (getHabitEntry st' (h_id habit) (startOfDay now))
             = if entryCompleted (getHabitEntry st (h_id habit) (startOfDay now))
               then 0 else h_targetCount habit).
  { intros i st Hm Hh. cbn zeta. unfold onToggle.
    rewrite handleHabitToggle_cases.
    destruct (entryCompleted (getHabitEntry st (h_id habit) (startOfDay now))).
    - destruct (markHabitIncomplete_read_back now st (h_id habit) (startOfDay now))
        as (_ & Hc & Hd & _).
      split; [now apply markHabitIncomplete_mirrored|]. split; [reflexivity|].
      split; [exact Hd | exact Hc].
    - destruct (write_count now i st habit (startOfDay now) (h_targetCount habit)
                  Hm Hh) as (Hm' & Hh' & Hc & Hd).
      split; [exact Hm'|]. split; [exact Hh'|]. split; [|exact Hc].
      rewrite Hd. apply Z.leb_refl. }
  destruct (Hstep id s Hmirror Hhabit) as (Hm1 & Hh1 & Hd1 & Hc1).
  split; [exact Hd1|]. split; [exact Hc1|].
  rewrite <- Hh1 in Hhabit.
  destruct (Hstep id' _ Hm1 Hhabit) as (_ & _ & Hd2 & _).
  rewrite Hd2, Hd1. apply negb_involutive.
Qed.

Lemma onToggle_flips_completion_witness :
  entryCompleted
    (getHabitEntry
       (onToggle sampleNow "e9" sampleAfterTwo (mkHabit "h1" "Drink water" "health" Daily 3))
       "h1" (startOfDay sampleNow)) = true.
Proof.
  assert (Hm : mirrored sampleAfterTwo).
  { apply (markHabitComplete_mirrored (sampleNow + 1) "e1" sampleHabits "h1"
             sampleNow 2 sampleAfterTwo (proj1 (proj2 sampleHabits_invariant)) eq_refl). }
  exact (proj1 (onToggle_flips_completion sampleNow "e9" "e10" sampleAfterTwo
                  (mkHabit "h1" "Drink water" "health" Daily 3) Hm eq_refl)).
Defined.

(** The counter of the details screen.  For a habit that exists,
    [handleIncrementCount] leaves the day's count at
    [min(count + 1, target)], never above the target, and the day
    completed exactly when the count has reached the target;
    [handleDecrementCount] leaves it at [max(count - 1, 0)]; and below
    the target an increment followed by a decrement gives the count
    back. *)
Theorem details_counter now id id' (s : HabitsState) (habit : Habit) :
  mirrored s ->
  findHabit (habits s) (h_id habit) = Some habit ->
  let today := startOfDay now in
  let countIn := fun st => entryCount (getHabitEntry st (h_id habit) today) in
  let completedIn := fun st => entryCompleted (getHabitEntry st (h_id habit) today) in
  let up := handleIncrementCount now id s habit in
  let down := handleDecrementCount now id s habit in
  countIn up = Z.min (countIn s + 1) (h_targetCount habit) /\
  countIn up <= h_targetCount habit /\
  completedIn up = (h_targetCount habit <=? countIn s + 1) /\
  countIn down = Z.max (countIn s - 1) 0 /\
  (0 <= countIn s < h_targetCount habit ->
   countIn (handleDecrementCount now id' up habit) = countIn s).
Proof.
  intros Hmirror Hhabit. cbn zeta.
  set (c := entryCount (getHabitEntry s (h_id habit) (startOfDay now))).
  assert (Hdown : forall i st,
             mirrored st -> findHabit (habits st) (h_id habit) = Some habit ->
             entryCount (getHabitEntry (handleDecrementCount now i st habit)
                                       (h_id habit) (startOfDay now))
             = Z.max (entryCount (getHabitEntry st (h_id habit) (startOfDay now)) - 1) 0).
  { intros i st Hm Hh. unfold handleDecrementCount.
    destruct (Z.max _ 0 =? 0) eqn:E.
    - apply Z.eqb_eq in E. rewrite E.
      apply (markHabitIncomplete_read_back now st (h_id habit) (startOfDay now)).
    - apply (write_count now i st habit (startOfDay now) _ Hm Hh). }
  destruct (write_count now id s habit (startOfDay now)
              (Z.min (c + 1) (h_targetCount habit)) Hmirror Hhabit)
    as (Hm1 & Hh1 & Hc1 & Hd1).
  fold c in Hc1, Hd1. unfold handleIncrementCount. fold c.
  split; [exact Hc1|]. split; [rewrite Hc1; lia|]. split.
  - rewrite Hd1. destruct (Z.leb_spec (h_targetCount habit) (c + 1)).
    + apply Z.leb_le. lia.
    + apply Z.leb_gt. lia.
  - split; [now apply Hdown|].
    intros Hc. rewrite <- Hh1 in Hhabit.
    specialize (Hdown id' _ Hm1 Hhabit).
    unfold handleIncrementCount in Hdown. fold c in Hdown.
    rewrite Hdown, Hc1. lia.
Qed.

Lemma details_counter_witness :
  entryCount
    (getHabitEntry
       (handleIncrementCount sampleNow "e9" sampleAfterTwo
                             (mkHabit "h1" "Drink water" "health" Daily 3))
       "h1" (startOfDay sampleNow)) = 3.
Proof.
  assert (Hm : mirrored sampleAfterTwo).
  { apply (markHabitComplete_mirrored (sampleNow + 1) "e1" sampleHabits "h1"
             sampleNow 2 sampleAfterTwo (proj1 (proj2 sampleHabits_invariant)) eq_refl). }
  exact (proj1 (details_counter sampleNow "e9" "e10" sampleAfterTwo
                  (mkHabit "h1" "Drink water" "health" Daily 3) Hm eq_refl)).
Defined.

(** ** The streak summary of a habit *)

Lemma find_sorted_newest (p : HabitEntry -> bool) (l : list HabitEntry) (e : HabitEntry) :
  sortedByDateDesc l -> List.find p l = Some e ->
  forall x, List.In x l -> p x = true -> e_date x <= e_date e.
Proof.
  unfold sortedByDateDesc. induction 1 as [|a l Hs IH Ha]; [discriminate|].
  cbn [List.find]. destruct (p a) eqn:E.
  - intros [= <-] x [<-|Hx] _; [lia|].
    rewrite List.Forall_forall in Ha. now apply Ha.
  - intros Hf x [<-|Hx] Hp; [congruence|]. now apply IH.
Qed.

Lemma in_sorted_filter (habitId : string) (entries : list HabitEntry) (e : HabitEntry) :
  List.In e (sortByDateDesc
               (List.filter (fun x => String.eqb (e_habitId x) habitId) entries))
  <-> List.In e entries /\ e_habitId e = habitId.
Proof.
  rewrite <- String.eqb_eq, <- (List.filter_In (fun x => String.eqb (e_habitId x) habitId)).
  split; apply Permutation_in;
    [|symmetry]; apply sortByDateDesc_Permutation.
Qed.

(** [calculateHabitStreak] of an unknown habit is all zeros with no last
    completed date.  For a habit that exists, the last completed date it
    reports is the date of the newest completed entry of that habit, and
    there is none exactly when the habit has no completed entry; its
    current streak never exceeds its longest. *)
Theorem calculateHabitStreak_last_completed now (s : HabitsState) (habitId : string) :
  let r := calculateHabitStreak now s habitId in
  (findHabit (habits s) habitId = None ->
   r = mkHabitStreak habitId 0 0 None (Some 0%Q)) /\
  (findHabit (habits s) habitId <> None ->
   0 <= hs_currentStreak r <= hs_longestStreak r /\
   match hs_lastCompletedDate r with
   | Some d =>
       (exists e, List.In e (habitEntries s) /\ e_habitId e = habitId /\
                  e_completed e = true /\ e_date e = d) /\
       (forall e, List.In e (habitEntries s) -> e_habitId e = habitId ->
                  e_completed e = true -> e_date e <= d)
   | None =>
       forall e, List.In e (habitEntries s) -> e_habitId e = habitId ->
                 e_completed e = false
   end).
Proof.
  cbn zeta. unfold calculateHabitStreak.
  destruct (findHabit (habits s) habitId) as [habit|]; split; try congruence.
  - intros _. cbn [hs_currentStreak hs_longestStreak hs_lastCompletedDate].
    set (entries := sortByDateDesc (List.filter _ (habitEntries s))).
    split.
    { pose proof (streakLoop_bounds now (h_frequency habit) (sortByDateDesc entries)
                    None (mkStreakVars 0 0 0) 0) as H.
      unfold calculateStreak. destruct entries; cbn [current longest]; [lia|].
      apply H; cbn; lia. }
    destruct (List.find e_completed entries) as [e|] eqn:E; cbn [option_map].
    + pose proof (find_sorted_newest e_completed entries e
                    (sortByDateDesc_sorted _) E) as Hmax.
      apply List.find_some in E as [Hin Hc].
      apply in_sorted_filter in Hin as [Hin Hid].
      split; [exists e; auto|].
      intros e' Hin' Hid' Hc'. apply Hmax; [|exact Hc'].
      now apply in_sorted_filter.
    + intros e Hin Hid.
      apply not_true_is_false. intros Hc.
      assert (He : List.In e entries) by now apply in_sorted_filter.
      pose proof (List.find_none _ _ E e He). congruence.
Qed.

Lemma calculateHabitStreak_last_completed_witness :
  hs_lastCompletedDate (calculateHabitStreak sampleNow sampleAfterThree "h1")
  = Some (startOfDay sampleNow) /\
  calculateHabitStreak sampleNow sampleAfterThree "h2"
  = mkHabitStreak "h2" 0 0 None (Some 0%Q).
Proof.
  split; [reflexivity|].
  assert (Hnone : findHabit (habits sampleAfterThree) "h2" = None)
    by (vm_compute; reflexivity).
  exact (proj1 (calculateHabitStreak_last_completed sampleNow sampleAfterThree "h2")
               Hnone).
Defined.

(** ** Goals *)

Lemma findGoal_mapWhere now (goals : list Goal) (goalId : string) (amount : Q) :
  findGoal (mapWhere (fun g => String.eqb (g_id g) goalId)
                     (setCurrentAmount amount now) goals) goalId
  = option_map (setCurrentAmount amount now) (findGoal goals goalId).
Proof. unfold findGoal. now apply find_mapWhere_same. Qed.

(** [addGoalContribution] fails exactly when no goal has the id.  When
    it succeeds no goal is added or removed, the goals of another id
    are left as they are, and the goal found under the id has its
    current amount raised by the (signed) amount, without any clamping;
    a second contribution adds to the first. *)
Theorem addGoalContribution_adds now now' (goals : list Goal) (goalId : string)
    (amount amount' : Q) :
  (findGoal goals goalId = None <->
   addGoalContribution now goals goalId amount = inl GoalNotFound) /\
  (forall goal, findGoal goals goalId = Some goal ->
     exists goals',
       addGoalContribution now goals goalId amount = inr goals' /\
       length goals' = length goals /\
       (forall i g, nth_error goals i = Some g -> g_id g <> goalId ->
                    nth_error goals' i = Some g) /\
       findGoal goals' goalId
       = Some (setCurrentAmount (g_currentAmount goal + amount) now goal) /\
       exists goals'' goal'',
         addGoalContribution now' goals' goalId amount' = inr goals'' /\
         findGoal goals'' goalId = Some goal'' /\
         (g_currentAmount goal'' == g_currentAmount goal + (amount + amount'))%Q).
Proof.
  unfold addGoalContribution. split.
  - destruct (findGoal goals goalId); split; congruence.
  - intros goal Hgoal. rewrite Hgoal. eexists. split; [reflexivity|].
    split; [apply List.length_map|]. split; [|split].
    + intros i g Hi Hne. unfold mapWhere. rewrite List.nth_error_map, Hi.
      cbn [option_map]. apply String.eqb_neq in Hne. now rewrite Hne.
    + now rewrite findGoal_mapWhere, Hgoal.
    + rewrite findGoal_mapWhere, Hgoal. cbn [option_map].
      eexists _, _. split; [reflexivity|].
      rewrite !findGoal_mapWhere, Hgoal. cbn [option_map].
      split; [reflexivity|]. cbn. ring.
Qed.

Lemma addGoalContribution_adds_witness :
  exists goals', addGoalContribution 1 sampleGoals "g1" 200 = inr goals' /\
                 option_map g_currentAmount (findGoal goals' "g1") = Some (400 + 200)%Q.
Proof.
  destruct (proj2 (addGoalContribution_adds 1 2 sampleGoals "g1" 200 (-700))
              (mkGoal "g1" "Holiday" 1000 400 None 0) eq_refl)
    as (goals' & Hg & _ & _ & Hf & _).
  exists goals'. split; [exact Hg|]. now rewrite Hf.
Defined.

Lemma findGoal_In (goals : list Goal) (goalId : string) (goal : Goal) :
  findGoal goals goalId = Some goal -> List.In goal goals.
Proof. intros H. now apply List.find_some in H. Qed.

(** The goals screen never lets a balance go negative: if every goal
    has a non-negative current amount and the selected goal is the one
    the state holds under its id, then after [submitContribution], for
    any amount and either kind, every current amount is still
    non-negative.  A non-positive amount, or a withdrawal larger than the
    balance, changes nothing. *)
Theorem submitContribution_keeps_balances_nonnegative now (goals : list Goal)
    (selectedGoal : Goal) (baseAmount : Q) (contributionType : ContributionType) :
  Forall (fun g => (0 <= g_currentAmount g)%Q) goals ->
  findGoal goals (g_id selectedGoal) = Some selectedGoal ->
  let goals' := submitContribution now goals selectedGoal baseAmount contributionType in
  Forall (fun g => (0 <= g_currentAmount g)%Q) goals' /\
  ((baseAmount <= 0)%Q -> goals' = goals) /\
  (contributionType = Withdrawal ->
   (g_currentAmount selectedGoal < baseAmount)%Q -> goals' = goals) /\
  ((0 < baseAmount)%Q ->
   (contributionType = Withdrawal -> (baseAmount <= g_currentAmount selectedGoal)%Q) ->
   exists goal',
     findGoal goals' (g_id selectedGoal) = Some goal' /\
     (g_currentAmount goal'
      == match contributionType with
         | Deposit => g_currentAmount selectedGoal + baseAmount
         | Withdrawal => g_currentAmount selectedGoal - baseAmount
         end)%Q).
Proof.
  intros Hall Hsel. cbn zeta. unfold submitContribution, addGoalContribution.
  rewrite Hsel.
  pose proof (findGoal_In _ _ _ Hsel) as Hin.
  assert (Hcur : (0 <= g_currentAmount selectedGoal)%Q)
    by (rewrite List.Forall_forall in Hall; now apply Hall).
  destruct (Qle_bool baseAmount 0) eqn:Ebase.
  { apply Qle_bool_iff in Ebase.
    split; [exact Hall|]. split; [reflexivity|]. split; [reflexivity|]. intros; lra. }
  assert (Hbase : (0 < baseAmount)%Q).
  { destruct (Qlt_le_dec 0 baseAmount) as [H|H]; [exact H|].
    apply Qle_bool_iff in H. congruence. }
  destruct contributionType.
  - split; [|split; [|split; [discriminate|]]].
    + apply Forall_map_rewrite; [exact Hall|]. intros g _. cbn. lra.
    + intros; lra.
    + intros _ _. rewrite findGoal_mapWhere, Hsel. cbn [option_map].
      eexists. split; reflexivity.
  - destruct (Qltb (g_currentAmount selectedGoal + - baseAmount) 0) eqn:Eover.
    + apply Qltb_iff in Eover.
      split; [exact Hall|]. split; [reflexivity|]. split; [reflexivity|].
      intros _ Hle. specialize (Hle eq_refl). lra.
    + assert (Hok : (0 <= g_currentAmount selectedGoal + - baseAmount)%Q).
      { destruct (Qlt_le_dec (g_currentAmount selectedGoal + - baseAmount) 0)
          as [H|H]; [|exact H].
        apply Qltb_iff in H. congruence. }
      split; [|split; [|split]].
      * apply Forall_map_rewrite; [exact Hall|]. intros g _. cbn. exact Hok.
      * intros; lra.
      * intros _ Hlt. lra.
      * intros _ _. rewrite findGoal_mapWhere, Hsel. cbn [option_map].
        eexists. split; [reflexivity|]. cbn. ring.
Qed.

Lemma submitContribution_keeps_balances_nonnegative_witness :
  submitContribution 1 sampleGoals (mkGoal "g1" "Holiday" 1000 400 None 0)
                     700 Withdrawal = sampleGoals /\
  Forall (fun g => (0 <= g_currentAmount g)%Q)
         (submitContribution 1 sampleGoals (mkGoal "g1" "Holiday" 1000 400 None 0)
                             300 Withdrawal).
Proof.
  assert (Hall : Forall (fun g => (0 <= g_currentAmount g)%Q) sampleGoals)
    by (repeat constructor; cbn; discriminate).
  split.
  - apply (submitContribution_keeps_balances_nonnegative 1 sampleGoals
             (mkGoal "g1" "Holiday" 1000 400 None 0) 700 Withdrawal Hall eq_refl);
      reflexivity.
  - apply (submitContribution_keeps_balances_nonnegative 1 sampleGoals
             (mkGoal "g1" "Holiday" 1000 400 None 0) 300 Withdrawal Hall eq_refl).
Defined.

Lemma orZero_Some_eq (v : Q) : (orZero (Some v) == v)%Q.
Proof. apply orZero_Some. Qed.

(** [getGoalProgress] always has a value, with a percentage of at most
    100 and a remaining amount of at least 0.  For a positive target the
    goal shows as 100 percent exactly when the current amount has reached
    the target, which is also exactly when nothing remains; without a
    positive target the percentage is 0. *)
Theorem getGoalProgress_reached (goal : Goal) :
  exists p,
    getGoalProgress goal = Some p /\
    (gp_percentage p <= 100)%Q /\
    (0 <= gp_remaining p)%Q /\
    ((0 < g_targetAmount goal)%Q ->
     ((gp_percentage p == 100)%Q <-> (g_targetAmount goal <= g_currentAmount goal)%Q) /\
     ((gp_remaining p == 0)%Q <-> (g_targetAmount goal <= g_currentAmount goal)%Q)) /\
    ((g_targetAmount goal <= 0)%Q -> (gp_percentage p == 0)%Q).
Proof.
  unfold getGoalProgress.
  pose proof (orZero_Some_eq (g_targetAmount goal)) as Ht.
  pose proof (orZero_Some_eq (g_currentAmount goal)) as Hc.
  set (t := orZero (Some (g_targetAmount goal))) in *.
  set (c := orZero (Some (g_currentAmount goal))) in *.
  clearbody t c.
  destruct (Qpositive t) eqn:E.
  - assert (Hpos : (0 < t)%Q).
    { unfold Qpositive in E. apply negb_true_iff in E.
      destruct (Qlt_le_dec 0 t) as [H|H]; [exact H|].
      apply Qle_bool_iff in H. congruence. }
    rewrite divide_nonzero by lra. cbn.
    eexists. split; [reflexivity|]. cbn [gp_percentage gp_remaining].
    split; [apply Q.le_min_r|]. split; [apply Q.le_max_r|].
    assert (Hq : (c / t * t == c)%Q) by (field; lra).
    assert (Hratio : (1 <= c / t)%Q <-> (t <= c)%Q).
    { split; intros H.
      - assert (H1 : (1 * t <= c / t * t)%Q) by (apply Qmult_le_r; assumption).
        rewrite Hq in H1. lra.
      - apply (Qmult_le_r _ _ t Hpos). rewrite Hq. lra. }
    split; [|intros; lra].
    intros _. split.
    + destruct (Q.min_spec (c / t * 100) 100) as [[Hlt Hm]|[Hle Hm]];
        rewrite -> Hm.
      * split; intros H; [lra|]. rewrite <- Ht, <- Hc in H. apply Hratio in H. lra.
      * split; intros H; [|reflexivity]. rewrite <- Ht, <- Hc. apply Hratio. lra.
    + destruct (Q.max_spec (t - c) 0) as [[Hlt Hm]|[Hle Hm]];
        rewrite -> Hm; split; intros; lra.
  - cbn. eexists. split; [reflexivity|]. cbn [gp_percentage gp_remaining].
    split; [apply Q.le_min_r|]. split; [apply Q.le_max_r|].
    split; [|intros; reflexivity].
    intros Hpos. rewrite <- Ht in Hpos. rewrite (Qpositive_true _ Hpos) in E.
    discriminate.
Qed.

Lemma getGoalProgress_reached_witness :
  exists p, getGoalProgress (mkGoal "g2" "Bike" 500 500 None 0) = Some p /\
            (gp_percentage p == 100)%Q.
Proof.
  destruct (getGoalProgress_reached (mkGoal "g2" "Bike" 500 500 None 0))
    as (p & Hp & _ & _ & Hpos & _).
  exists p. split; [exact Hp|].
  apply (Hpos ltac:(reflexivity)). cbn. discriminate.
Defined.

(** ** Spending windows *)

Lemma dayNumber_addDays (d : Date) (n : Z) : dayNumber (addDays d n) = dayNumber d + n.
Proof.
  unfold dayNumber, addDays. apply Z.div_add. pose proof msPerDay_pos. lia.
Qed.

(** The week [getMonthlySpending] sums a weekly budget over: it starts
    on a Sunday, at the time of day of the call, ends six days later at
    the same time of day, and contains the instant of the call. *)
Theorem weekly_window_is_the_current_week now (budget : Budget) :
  b_period budget = Weekly ->
  let periodStart := fst (spendingWindow now (Some budget)) in
  let periodEnd := snd (spendingWindow now (Some budget)) in
  getDay periodStart = 0 /\
  periodStart <= now <= periodEnd /\
  periodEnd = addDays periodStart 6 /\
  periodStart - startOfDay periodStart = now - startOfDay now /\
  0 <= dayNumber now - dayNumber periodStart <= 6.
Proof.
  intros Hw. unfold spendingWindow. cbn [option_map]. rewrite Hw. cbn [fst snd].
  pose proof msPerDay_pos as Hms.
  assert (Hday : 0 <= getDay now < 7) by (unfold getDay; apply Z.mod_pos_bound; lia).
  split; [|split; [|split; [|split]]].
  - unfold getDay at 1. rewrite dayNumber_addDays. unfold getDay.
    replace (dayNumber now + - ((dayNumber now + 4) mod 7) + 4)
      with ((dayNumber now + 4) - ((dayNumber now + 4) mod 7)) by lia.
    rewrite Zminus_mod, Zmod_mod, Z.sub_diag. reflexivity.
  - unfold addDays. nia.
  - reflexivity.
  - unfold startOfDay. rewrite dayNumber_addDays. unfold addDays. lia.
  - rewrite dayNumber_addDays. lia.
Qed.

Lemma weekly_window_is_the_current_week_witness :
  getDay (fst (spendingWindow sampleNow (Some (mkBudget "b2" "food" 100 Weekly 0 0))))
  = 0.
Proof.
  exact (proj1 (weekly_window_is_the_current_week sampleNow
                  (mkBudget "b2" "food" 100 Weekly 0 0) eq_refl)).
Defined.

Lemma isExpenseOfIn_filter (c : string) (w : Date * Date) (t : Transaction) :
  TransactionType_eqb (t_type t) Expense && String.eqb (t_category t) c
  && (fst w <=? t_date t) && (t_date t <=? snd w)
  = isExpenseOfIn c w t.
Proof. unfold isExpenseOfIn. now rewrite TransactionType_eqb_Expense. Qed.

Lemma getMonthlySpending_sum now budgets (transactions : list Transaction)
    (category : string) :
  let budget := List.find (fun b => String.eqb (b_category b) category) budgets in
  (getMonthlySpending now budgets transactions category
   == sumOfAmountsWhere (isExpenseOfIn category (spendingWindow now budget))
                        transactions)%Q.
Proof.
  cbn zeta. unfold getMonthlySpending.
  destruct (spendingWindow now _) as [periodStart periodEnd].
  rewrite sumAmounts_filter. erewrite sumOfAmountsWhere_ext; [reflexivity|].
  intros t. apply (isExpenseOfIn_filter category (periodStart, periodEnd)).
Qed.

(** The spending the budgets screen shows for a category is the entry of
    that category in the month's category spending, and 0 when the
    category has no entry there, unless the first budget of the category
    is a weekly one. *)
Theorem getMonthlySpending_agrees_with_getCategorySpending now budgets
    (transactions : list Transaction) (category : string) :
  (forall b, List.find (fun b => String.eqb (b_category b) category) budgets = Some b ->
             b_period b = Monthly) ->
  (getMonthlySpending now budgets transactions category
   == orZero (getCategorySpending now transactions Month !! category))%Q.
Proof.
  intros Hmonthly. rewrite getMonthlySpending_sum.
  assert (Hw : spendingWindow now
                 (List.find (fun b => String.eqb (b_category b) category) budgets)
               = categorySpendingWindow now Month).
  { unfold spendingWindow.
    destruct (List.find _ budgets) as [b|]; [|reflexivity].
    cbn [option_map]. now rewrite (Hmonthly b eq_refl). }
  rewrite Hw.
  destruct (getCategorySpending_lookup now transactions Month category)
    as [Hsome Hnone]. cbn zeta in *.
  destruct (existsb (isExpenseOfIn category (categorySpendingWindow now Month))
                    transactions) eqn:E.
  - apply existsb_exists in E. destruct (Hsome E) as (v & -> & Hv).
    now rewrite orZero_Some, Hv.
  - rewrite Hnone.
    + now rewrite (sumOfAmountsWhere_none _ _ E).
    + intros t Hin. apply not_true_is_false. intros Ht.
      apply not_true_iff_false in E. apply E. apply existsb_exists. eauto.
Qed.

Lemma getMonthlySpending_agrees_with_getCategorySpending_witness :
  (getMonthlySpending sampleNow [sampleFoodBudget] sampleTransactions "food"
   == orZero (getCategorySpending sampleNow sampleTransactions Month !! "food"%string))%Q.
Proof.
  apply getMonthlySpending_agrees_with_getCategorySpending.
  intros b [= <-]. reflexivity.
Defined.

(** ** The cached spending of a budget *)













(** ** Adding and deleting transactions *)





Lemma Permutation_filter_both {A} (p : A -> bool) (l1 l2 : list A) :
  Permutation l1 l2 -> Permutation (List.filter p l1) (List.filter p l2).
Proof.
  induction 1 as [|x l1 l2 _ IH|x y l|l1 l2 l3 _ IH1 _ IH2]; cbn [List.filter].
  - reflexivity.
  - destruct (p x); [now apply perm_skip | exact IH].
  - destruct (p x), (p y); try reflexivity. apply perm_swap.
  - now transitivity (List.filter p l2).
Qed.

Lemma filter_fresh {A} (p : A -> bool) (l : list A) :
  (forall x, List.In x l -> p x = true) -> List.filter p l = l.
Proof.
  intros H. apply filter_all. now apply List.Forall_forall.
Qed.

(** The table keeps holding the rows of the state's transactions
    through [addTransaction] and [deleteTransaction]; and deleting a
    transaction just added under an id no other transaction has gives
    back the transactions and the rows there were. *)
Theorem add_delete_transaction now now' id (st : FinanceState) (t : Transaction) :
  tableMirrors st ->
  tableMirrors (addTransaction now id st t) /\
  tableMirrors (deleteTransaction now st id) /\
  ((forall x, List.In x (fin_transactions st) -> t_id x <> id) ->
   (forall r, List.In r (fin_rows st) -> tr_id r <> id) ->
   let st' := deleteTransaction now' (addTransaction now id st t) id in
   fin_transactions st' = fin_transactions st /\ fin_rows st' = fin_rows st).
Proof.
  intros Hmirror. unfold tableMirrors in *. split; [|split].
  - unfold addTransaction. cbn [fin_transactions fin_rows List.map].
    rewrite Hmirror. apply Permutation_cons_append.
  - unfold deleteTransaction. cbn [fin_transactions fin_rows].
    rewrite <- (Permutation_filter_both _ _ _ Hmirror).
    clear Hmirror. induction (fin_transactions st) as [|x l IH]; [reflexivity|].
    cbn [List.map List.filter toRow tr_id].
    destruct (negb (String.eqb (t_id x) id)); [|exact IH].
    cbn [List.map]. now apply perm_skip.
  - intros Hfresh Hfresh_rows. cbn zeta.
    unfold deleteTransaction, addTransaction.
    cbn [fin_transactions fin_rows List.filter t_id].
    rewrite String.eqb_refl. cbn [negb]. split.
    + apply filter_fresh. intros x Hx.
      now apply negb_true_iff, String.eqb_neq, Hfresh.
    + rewrite List.filter_app. cbn [List.filter toRow tr_id t_id].
      rewrite String.eqb_refl. cbn [negb]. rewrite List.app_nil_r.
      apply filter_fresh. intros r Hr.
      now apply negb_true_iff, String.eqb_neq, Hfresh_rows.
Qed.

Lemma add_delete_transaction_witness :
  fin_transactions
    (deleteTransaction sampleNow
       (addTransaction sampleNow "t9" sampleFinance
          (mkTransaction "" 1000 "salary" "pay" sampleNow Income)) "t9")
  = fin_transactions sampleFinance.
Proof.
  assert (Hm : tableMirrors sampleFinance) by (unfold tableMirrors; reflexivity).
  refine (proj1 (proj2 (proj2 (add_delete_transaction sampleNow sampleNow "t9"
                                sampleFinance
                                (mkTransaction "" 1000 "salary" "pay" sampleNow Income)
                                Hm)) _ _)).
  - intros x [<-|[<-|[]]]; discriminate.
  - intros r [<-|[<-|[]]]; discriminate.
Defined.

(** ** Body fat from measurements, and the weight log *)

(** [calculateBodyFatFromMeasurements] returns a value only between 3
    and 50 percent, the value [calculateBodyFat] computes from a height,
    a waist and a neck measurement that are present and not 0, for a
    profile with a gender, and with a hip measurement for a female
    profile: neither the 0 of a missing hip nor an undefined result
    reaches the caller. *)
Theorem calculateBodyFatFromMeasurements_range (log10 : Q -> option Q)
    (userProfile : option UserProfile) (measurements : Measurements) (bodyFat : Q) :
  calculateBodyFatFromMeasurements log10 userProfile measurements = Some bodyFat ->
  (3 <= bodyFat)%Q /\ (bodyFat <= 50)%Q /\
  exists profile gender height waist neck,
    userProfile = Some profile /\ up_gender profile = Some gender /\
    ms_height measurements = Some height /\ ~ (height == 0)%Q /\
    ms_waist measurements = Some waist /\ ~ (waist == 0)%Q /\
    ms_neck measurements = Some neck /\ ~ (neck == 0)%Q /\
    (gender = Female -> present (ms_hip measurements) = true) /\
    calculateBodyFat log10 gender waist neck height (ms_hip measurements) Metric
    = Some bodyFat.
Proof.
  unfold calculateBodyFatFromMeasurements.
  destruct userProfile as [profile|]; [|discriminate].
  destruct (up_gender profile) as [gender|] eqn:Egender; [|discriminate].
  destruct (ms_height measurements) as [height|] eqn:Eheight; [|discriminate].
  destruct (ms_waist measurements) as [waist|] eqn:Ewaist;
    [|cbn [present negb orb]; rewrite orb_true_r; discriminate].
  destruct (ms_neck measurements) as [neck|] eqn:Eneck;
    [|cbn [present negb orb]; rewrite orb_true_r; discriminate].
  cbn [present].
  destruct (truthy height) eqn:Eh; [|discriminate].
  destruct (truthy waist) eqn:Ew; [|discriminate].
  destruct (truthy neck) eqn:En; [|discriminate].
  cbn [negb orb].
  assert (Hnz : forall x, truthy x = true -> ~ (x == 0)%Q).
  { intros x Hx H. unfold truthy in Hx. apply negb_true_iff in Hx.
    apply Qeq_bool_iff in H. congruence. }
  destruct (match gender with Female => _ | Male => false end) eqn:Eg; [discriminate|].
  destruct (calculateBodyFat log10 gender waist neck height _ Metric) as [v|] eqn:Ev;
    [|discriminate].
  destruct (Qltb v 3) eqn:E3; [discriminate|].
  destruct (Qltb 50 v) eqn:E50; [discriminate|].
  intros [= <-].
  apply not_true_iff_false in E3, E50. rewrite Qltb_iff in E3, E50.
  split; [lra|]. split; [lra|].
  exists profile, gender, height, waist, neck.
  split; [reflexivity|]. split; [exact Egender|].
  split; [reflexivity|]. split; [now apply Hnz|].
  split; [reflexivity|]. split; [now apply Hnz|].
  split; [reflexivity|]. split; [now apply Hnz|].
  split; [|exact Ev].
  intros ->. now apply negb_false_iff in Eg.
Qed.

Lemma calculateBodyFatFromMeasurements_range_witness :
  exists bodyFat,
    calculateBodyFatFromMeasurements sampleLog10 (Some sampleProfile)
                                     sampleMeasurements = Some bodyFat /\
    (3 <= bodyFat)%Q /\ (bodyFat <= 50)%Q.
Proof.
  destruct (calculateBodyFatFromMeasurements sampleLog10 (Some sampleProfile)
                                             sampleMeasurements)
    as [bodyFat|] eqn:E; [|vm_compute in E; discriminate E].
  exists bodyFat. split; [reflexivity|].
  destruct (calculateBodyFatFromMeasurements_range sampleLog10 (Some sampleProfile)
              sampleMeasurements bodyFat E) as (Hlow & Hhigh & _).
  split; [exact Hlow | exact Hhigh].
Defined.

(** The weight log.  [getLatestWeight] after [addWeightEntry] returns
    the entry just added, whatever its date; adding keeps a newest-first
    log newest-first exactly when no entry of the log is dated after the
    added one; deleting always keeps it newest-first, leaves no entry of
    the deleted id and keeps every other entry. *)
Theorem weight_log_order (id : string) (weightEntries : list WeightEntry)
    (entry : WeightEntry) :
  (exists added,
      getLatestWeight (addWeightEntry id weightEntries entry) = Some added /\
      w_id added = id /\ w_weight added = w_weight entry /\
      w_date added = w_date entry) /\
  (newestFirst weightEntries ->
   (newestFirst (addWeightEntry id weightEntries entry)
    <-> forall w, List.In w weightEntries -> w_date w <= w_date entry) /\
   newestFirst (deleteWeightEntry weightEntries id)) /\
  (forall w, List.In w (deleteWeightEntry weightEntries id)
             <-> List.In w weightEntries /\ w_id w <> id).
Proof.
  split; [|split].
  - eexists. split; [reflexivity|]. repeat split.
  - intros Hs. split.
    + unfold addWeightEntry, newestFirst in *. split.
      * intros H w Hw. apply StronglySorted_inv in H as [_ H].
        rewrite List.Forall_forall in H. apply (H w Hw).
      * intros H. constructor; [exact Hs|].
        apply List.Forall_forall. intros w Hw. cbn. now apply H.
    + now apply newestFirst_filter.
  - intros w. unfold deleteWeightEntry.
    rewrite List.filter_In, negb_true_iff, String.eqb_neq. tauto.
Qed.

Lemma weight_log_order_witness :
  ~ newestFirst (addWeightEntry "w9" sampleWeights
                   (mkWeightEntry "" 70 (19720 * msPerDay))) /\
  newestFirst (deleteWeightEntry sampleWeights "w3").
Proof.
  assert (Hs : newestFirst sampleWeights).
  { unfold newestFirst, sampleWeights.
    repeat (apply SSorted_cons || apply SSorted_nil
            || apply List.Forall_cons || apply List.Forall_nil);
      vm_compute; discriminate. }
  destruct (proj1 (proj2 (weight_log_order "w9" sampleWeights
                            (mkWeightEntry "" 70 (19720 * msPerDay)))) Hs)
    as [Hadd _].
  destruct (proj1 (proj2 (weight_log_order "w3" sampleWeights
                            (mkWeightEntry "" 70 (19720 * msPerDay)))) Hs)
    as [_ Hdel].
  split; [|exact Hdel].
  intros H.
  pose proof (proj1 Hadd H (mkWeightEntry "w5" 71.5 (19739 * msPerDay))
                (or_introl eq_refl)) as Hle.
  vm_compute in Hle. now apply Hle.
Defined.

(** ** The completion rate of a habit *)

Lemma NoDup_map_in_inj {A B} (f : A -> B) (l : list A) :
  (forall x y, List.In x l -> List.In y l -> f x = f y -> x = y) ->
  List.NoDup l -> List.NoDup (List.map f l).
Proof.
  intros Hinj Hnd. induction Hnd as [|x l Hx Hnd IH]; cbn [List.map]; constructor.
  - intros Hin. apply List.in_map_iff in Hin as (y & Hy & Hin).
    assert (y = x) by (apply Hinj; [now right | now left | exact Hy]).
    subst y. contradiction.
  - apply IH. intros a b Ha Hb. apply Hinj; now right.
Qed.

(** At most [n] distinct integers lie in a range of [n] integers. *)
Lemma distinct_in_range (ks : list Z) (lo n : Z) :
  0 <= n -> List.NoDup ks ->
  (forall k, List.In k ks -> lo <= k < lo + n) ->
  Z.of_nat (length ks) <= n.
Proof.
  intros Hn Hnd Hrange.
  assert (Hlen : (length (List.map (fun k => Z.to_nat (k - lo)) ks)
                  <= length (List.seq 0 (Z.to_nat n)))%nat).
  { apply List.NoDup_incl_length.
    - apply NoDup_map_in_inj; [|exact Hnd].
      intros x y Hx Hy Hxy. apply Hrange in Hx, Hy. lia.
    - intros m Hm. apply List.in_map_iff in Hm as (k & <- & Hk).
      apply Hrange in Hk. apply List.in_seq. lia. }
  rewrite List.length_map, List.length_seq in Hlen. lia.
Qed.

Lemma NoDup_days_of_keys (habitId : string) (l : list HabitEntry) :
  (forall e, List.In e l -> e_habitId e = habitId) ->
  List.NoDup (List.map entryKey l) ->
  List.NoDup (List.map (fun e => formatDay (e_date e)) l).
Proof.
  intros Hid. induction l as [|x l IH]; cbn [List.map]; [constructor|].
  intros Hnd. apply List.NoDup_cons_iff in Hnd as [Hx Hnd].
  constructor.
  - intros Hin. apply Hx. apply List.in_map_iff in Hin as (y & Hy & Hin).
    apply List.in_map_iff. exists y. split; [|exact Hin].
    unfold entryKey. rewrite Hy.
    rewrite (Hid y) by now right. now rewrite (Hid x) by now left.
  - apply IH; [|exact Hnd]. intros e He. apply Hid. now right.
Qed.

(** [getHabitCompletionRate] stays between 0 and 100.  When the habit
    has at most one entry a day, each dated at the start of its day and
    none after [now], and the call is not made at midnight sharp, the
    rate over a positive number of days has a value between 0 and
    100. *)
Theorem getHabitCompletionRate_at_most_100 now (s : HabitsState)
    (habitId : string) (days : Z) :
  0 < days ->
  List.NoDup (List.map entryKey (habitEntries s)) ->
  (forall e, List.In e (habitEntries s) -> e_habitId e = habitId ->
             e_date e = startOfDay (e_date e) /\ e_date e <= now) ->
  now <> startOfDay now ->
  exists rate,
    getHabitCompletionRate now s habitId days = Some rate /\
    (0 <= rate)%Q /\ (rate <= 100)%Q.
Proof.
  intros Hdays Hnd Hentries Hnow.
  unfold getHabitCompletionRate.
  set (entries := List.filter _ (habitEntries s)).
  assert (Hin : forall e, List.In e entries ->
                  List.In e (habitEntries s) /\ e_habitId e = habitId /\
                  addDays now (- days) <= e_date e).
  { intros e He. apply List.filter_In in He as [He Hp].
    apply andb_true_iff in Hp as [Hid Hc].
    apply String.eqb_eq in Hid. apply Z.leb_le in Hc. auto. }
  assert (Hlen : Z.of_nat (length entries) <= days).
  { rewrite <- (List.length_map (fun e => formatDay (e_date e))).
    apply (distinct_in_range _ (dayNumber now - days + 1)); [lia| |].
    - apply (NoDup_days_of_keys habitId); [intros e He; now apply Hin|].
      now apply NoDup_map_filter.
    - intros k Hk. apply List.in_map_iff in Hk as (e & <- & He).
      destruct (Hin e He) as (Hs & Hid & Hcut).
      destruct (Hentries e Hs Hid) as [Hmid Hle].
      unfold formatDay, startOfDay, addDays, dayNumber in *.
      pose proof msPerDay_pos as Hms.
      pose proof (Z.div_mod now msPerDay ltac:(lia)) as Hdm.
      pose proof (Z.mod_pos_bound now msPerDay Hms) as Hr.
      set (k := e_date e / msPerDay) in *. set (D := now / msPerDay) in *.
      nia. }
  unfold calculateCompletionRate.
  replace (days =? 0) with false by (symmetry; apply Z.eqb_neq; lia).
  rewrite divide_nonzero by (unfold Qeq; cbn; lia). cbn.
  eexists. split; [reflexivity|].
  pose proof (filter_length_le e_completed entries) as Hc.
  destruct (inject_Z_ratio_bounds
              (Z.of_nat (length (List.filter e_completed entries))) days
              Hdays ltac:(lia)) as [Hlow Hhigh].
  split; [exact Hlow | apply Hhigh; lia].
Qed.

Lemma getHabitCompletionRate_at_most_100_witness :
  exists rate,
    getHabitCompletionRate sampleNow sampleAfterThree "h1" 7 = Some rate /\
    (0 <= rate)%Q /\ (rate <= 100)%Q.
Proof.
  apply getHabitCompletionRate_at_most_100.
  - lia.
  - vm_compute. repeat constructor. intros [].
  - intros e He _. vm_compute in He. destruct He as [<-|[]].
    split; vm_compute; [reflexivity | discriminate].
  - vm_compute. discriminate.
Defined.

(** ** Two runs separated by a gap *)

Lemma descendingDays_tail (a : HabitEntry) (l : list HabitEntry) :
  descendingDays (a :: l) -> descendingDays l.
Proof. destruct l as [|b l]; cbn; tauto. Qed.

Lemma descendingDays_sorted (l : list HabitEntry) :
  descendingDays l -> sortByDateDesc l = l.
Proof.
  induction l as [|a l IH]; [reflexivity|].
  intros Hd. cbn [sortByDateDesc fold_right]. fold (sortByDateDesc l).
  rewrite IH by (now apply descendingDays_tail in Hd).
  destruct l as [|b l]; [reflexivity|].
  destruct Hd as [Hle _]. cbn [insertByDateDesc].
  apply Z.leb_le in Hle. now rewrite Hle.
Qed.

Lemma last_cons_default {A} (l : list A) : forall x a,
  List.last (x :: l) a = List.last l x.
Proof.
  induction l as [|y l IH]; intros x a; [reflexivity|].
  change (List.last (x :: y :: l) a) with (List.last (y :: l) a).
  now rewrite !IH.
Qed.

Lemma descendingDays_join (l1 : list HabitEntry) : forall a b l2,
  consecutiveDays (a :: l1) -> consecutiveDays (b :: l2) ->
  e_date b <= e_date (List.last l1 a) ->
  descendingDays ((a :: l1) ++ b :: l2).
Proof.
  induction l1 as [|x l1 IH]; intros a b l2 H1 H2 Hjoin.
  - cbn [List.last] in Hjoin. cbn [app]. split; [exact Hjoin|].
    clear Hjoin H1. revert b H2.
    induction l2 as [|y l2 IHl]; intros b H2; [exact I|].
    destruct H2 as (Hle & _ & H2). split; [exact Hle | now apply IHl].
  - destruct H1 as (Hle & _ & H1).
    change ((a :: x :: l1) ++ b :: l2) with (a :: ((x :: l1) ++ b :: l2)).
    split; [exact Hle|]. apply IH; [exact H1 | exact H2|].
    now rewrite last_cons_default in Hjoin.
Qed.

Lemma streakLoop_app now f (l1 : list HabitEntry) : forall prev s l2,
  streakLoop now f prev (l1 ++ l2) s
  = streakLoop now f (match l1 with [] => prev | x :: l => Some (List.last l x) end)
               l2 (streakLoop now f prev l1 s).
Proof.
  induction l1 as [|x l1 IH]; intros prev s l2; [reflexivity|].
  cbn [app streakLoop]. rewrite IH.
  destruct l1 as [|y l1]; [reflexivity|]. now rewrite last_cons_default.
Qed.

(** Two runs of completed entries on consecutive days, separated by a
    gap: the longest streak is the length of the longer run, not the
    sum. *)
Theorem calculateStreak_two_runs now (a b : HabitEntry) (l1 l2 : list HabitEntry) :
  Forall (fun x => e_completed x = true) (a :: l1) ->
  Forall (fun x => e_completed x = true) (b :: l2) ->
  consecutiveDays (a :: l1) ->
  consecutiveDays (b :: l2) ->
  e_date b <= e_date (List.last l1 a) ->
  differenceInDays (e_date (List.last l1 a)) (e_date b) <> 1 ->
  calculateStreak now ((a :: l1) ++ b :: l2) Daily
  = mkStreak (if differenceInDays now (e_date a) <=? 1 then 1 else 0)
             (Z.max (Z.of_nat (length (a :: l1))) (Z.of_nat (length (b :: l2)))).
Proof.
  intros Hall1 Hall2 Hc1 Hc2 Hjoin Hgap.
  unfold calculateStreak.
  rewrite (descendingDays_sorted _ (descendingDays_join _ _ _ _ Hc1 Hc2 Hjoin)).
  change ((a :: l1) ++ b :: l2) with (a :: (l1 ++ b :: l2)).
  cbn [streakLoop]. rewrite streakLoop_app.
  inversion Hall1 as [|? ? Ha Hl1]; subst.
  inversion Hall2 as [|? ? Hb Hl2]; subst.
  set (s0 := streakIteration now Daily None a (mkStreakVars 0 0 0)).
  assert (Hs0 : s0 = mkStreakVars (if differenceInDays now (e_date a) <=? 1 then 1 else 0)
                                  1 1).
  { unfold s0, streakIteration. rewrite Ha. cbn [negb frequency_is_daily andb].
    now destruct (differenceInDays now (e_date a) <=? 1). }
  rewrite (streakLoop_run now l1 a s0 Hc1 Hl1) by (rewrite Hs0; cbn; lia).
  rewrite Hs0. cbn [currentStreak longestStreak tempStreak streakLoop].
  replace (match l1 with [] => Some a | x :: l => Some (List.last l x) end)
    with (Some (List.last l1 a))
    by (destruct l1; [reflexivity | now rewrite last_cons_default]).
  rewrite streakLoop_run; [|exact Hc2|exact Hl2|].
  - unfold streakIteration. rewrite Hb. cbn [negb frequency_is_daily andb].
    apply Z.eqb_neq in Hgap. rewrite Hgap. cbn. f_equal. lia.
  - unfold streakIteration. rewrite Hb. cbn [negb frequency_is_daily andb].
    apply Z.eqb_neq in Hgap. rewrite Hgap. cbn. lia.
Qed.

(** Two days, a day without entry, two days. *)
Lemma calculateStreak_two_runs_witness :
  calculateStreak sampleNow
    ([completedEntry "5" "h1" (19739 * msPerDay);
      completedEntry "4" "h1" (19738 * msPerDay)]
     ++ [completedEntry "2" "h1" (19736 * msPerDay);
         completedEntry "1" "h1" (19735 * msPerDay)]) Daily
  = mkStreak 1 2.
Proof.
  apply (calculateStreak_two_runs sampleNow
           (completedEntry "5" "h1" (19739 * msPerDay))
           (completedEntry "2" "h1" (19736 * msPerDay))
           [completedEntry "4" "h1" (19738 * msPerDay)]
           [completedEntry "1" "h1" (19735 * msPerDay)]).
  - repeat constructor.
  - repeat constructor.
  - cbn. repeat split; (reflexivity || discriminate).
  - cbn. repeat split; (reflexivity || discriminate).
  - vm_compute. discriminate.
  - vm_compute. discriminate.
Defined.

(** ** The daily spending chart *)






